(** * xmlschema: notation components, the exception hierarchy and the
      package-level entry points

    A shallow embedding of three modules of the [xmlschema] package:

    - [xmlschema/exceptions.py]: the exception classes and their bases;
    - [xmlschema/components/__init__.py]: [XsdNotation], whose [_parse]
      records grammar violations on the owning schema;
    - [xmlschema/__init__.py]: [validate], [to_dict], [to_json] and
      [from_json].

    Python values are a small inductive type; exceptions are values carrying
    their class; fallible code returns [result]; calls that leave the three
    modules (the schema classes, the resource fetcher, the [json] module) are
    nodes of a program tree that is run against an oracle. *)

From stdpp Require Import base option list strings gmap.

Open Scope string_scope.
Open Scope list_scope.
Set Warnings "-register-all".

(** ** Python values *)

(** The values that flow through the modelled code. [PyObj] is an opaque
    object known by its identity, [PyXMLSchema] an object for which
    [isinstance(_, XMLSchema)] holds, [PyGlobal] a module-level name used as
    a value (a class or a function), and [PyFormat fmt args] the string
    [fmt % args], kept unevaluated because [%r] depends on [repr]. *)
Inductive PyVal : Type :=
| PyNone
| PyBool (b : bool)
| PyStr (s : string)
| PyFormat (fmt : string) (args : list PyVal)
| PyTuple (items : list PyVal)
| PyList (items : list PyVal)
| PyGlobal (qualname : string)
| PyObj (id : nat)
| PyXMLSchema (id : nat).

(** ** xmlschema/exceptions.py *)

Module Exceptions.

(** The builtin classes named as bases in [exceptions.py] (with the builtins
    between them and [Exception]), the classes of [exceptions.py], and the
    validator errors imported by [xmlschema/__init__.py]. *)
Inductive PyClass : Type :=
| Exception
| OSError
| AttributeError
| TypeError
| ValueError
| SyntaxError
| LookupError
| KeyError
| IndexError
| RuntimeError
| URLError
| XMLSchemaException
| XMLSchemaOSError
| XMLSchemaAttributeError
| XMLSchemaTypeError
| XMLSchemaValueError
| XMLSchemaSyntaxError
| XMLSchemaKeyError
| XMLSchemaURLError
| XMLSchemaRegexError
| XMLSchemaXPathError
| XMLSchemaValidatorError
| XMLSchemaNotBuiltError
| XMLSchemaParseError
| XMLSchemaValidationError
| XMLSchemaDecodeError
| XMLSchemaEncodeError
| XMLSchemaChildrenValidationError.

#[global] Instance PyClass_eq_dec : EqDecision PyClass.
Proof. solve_decision. Defined.

(** Modelled from the spec: [xmlschema/validators/exceptions.py] is not among
    the sources. Section 7 lists ParseError, NotBuiltError, ValidationError
    as the base of DecodeError, EncodeError and ChildrenValidationError, and
    says that all error kinds share a common base. *)
Definition validator_bases (c : PyClass) : list PyClass :=
  match c with
  | XMLSchemaValidatorError => [XMLSchemaException]
  | XMLSchemaNotBuiltError => [XMLSchemaValidatorError; RuntimeError]
  | XMLSchemaParseError => [XMLSchemaValidatorError; ValueError]
  | XMLSchemaValidationError => [XMLSchemaValidatorError; ValueError]
  | XMLSchemaDecodeError => [XMLSchemaValidationError]
  | XMLSchemaEncodeError => [XMLSchemaValidationError]
  | XMLSchemaChildrenValidationError => [XMLSchemaValidationError]
  | _ => []
  end.

(** The base classes written in each [class] statement. *)
Definition bases (c : PyClass) : list PyClass :=
  match c with
  | Exception => []
  | OSError | AttributeError | TypeError | ValueError | SyntaxError
  | LookupError | RuntimeError => [Exception]
  | KeyError | IndexError => [LookupError]
  | URLError => [OSError]
  | XMLSchemaException => [Exception]
  | XMLSchemaOSError => [XMLSchemaException; OSError]
  | XMLSchemaAttributeError => [XMLSchemaException; AttributeError]
  | XMLSchemaTypeError => [XMLSchemaException; TypeError]
  | XMLSchemaValueError => [XMLSchemaException; ValueError]
  | XMLSchemaSyntaxError => [XMLSchemaException; SyntaxError]
  | XMLSchemaKeyError => [XMLSchemaException; KeyError]
  | XMLSchemaURLError => [XMLSchemaException; URLError]
  | XMLSchemaRegexError => [XMLSchemaException; ValueError]
  | XMLSchemaXPathError => [XMLSchemaException; ValueError]
  | c => validator_bases c
  end.

(** [issubclass]: [c] is [d] or one of the bases of [c] is a subclass of
    [d]. The hierarchy is five levels deep; [depth] bounds the search. *)
Fixpoint issubclass_upto (depth : nat) (c d : PyClass) : bool :=
  bool_decide (c = d) ||
  match depth with
  | O => false
  | S depth' => existsb (fun b => issubclass_upto depth' b d) (bases c)
  end.

Definition issubclass (c d : PyClass) : bool := issubclass_upto 8 c d.

(** An exception instance: its class and the arguments it was built with. *)
Record PyExc : Type := mkExc { exc_class : PyClass; exc_args : list PyVal }.

Definition isinstance (e : PyExc) (c : PyClass) : bool :=
  issubclass (exc_class e) c.

End Exceptions.
Export Exceptions.

(** ** Fallible computations *)

Inductive result (A : Type) : Type :=
| Ok (a : A)
| Raise (e : PyExc).
Arguments Ok {A} a.
Arguments Raise {A} e.

#[global] Instance result_ret : MRet result := fun A a => Ok a.
#[global] Instance result_bind : MBind result := fun A B f r =>
  match r with
  | Ok a => f a
  | Raise e => Raise e
  end.

(** [try: body except cls: handler]: the handler runs when the body raises
    an instance of [cls]; any other exception passes through. *)
Definition try_except {A : Type} (body : result A) (cls : PyClass)
    (handler : PyExc -> result A) : result A :=
  match body with
  | Ok a => Ok a
  | Raise e => if isinstance e cls then handler e else Raise e
  end.

(** ** Dictionaries with string keys, in insertion order *)

(** [Element.attrib] is a [dict]; iteration visits its keys in order, which
    fixes the order of the recorded errors, so it is kept as a list of
    pairs. A [dict] holds each key once: [dict_wf]. *)
Definition dict (V : Type) : Type := list (string * V).

Definition keys {V : Type} (d : dict V) : list string := map fst d.

Definition dict_wf {V : Type} (d : dict V) : Prop := NoDup (keys d).

Fixpoint dict_lookup {V : Type} (d : dict V) (k : string) : option V :=
  match d with
  | [] => None
  | (k', v) :: d' => if String.eqb k' k then Some v else dict_lookup d' k
  end.

(** [k in d] *)
Definition dict_contains {V : Type} (d : dict V) (k : string) : bool :=
  bool_decide (k ∈ keys d).

(** [d[k]], raising [KeyError(k)] for a missing key *)
Definition dict_getitem {V : Type} (d : dict V) (k : string) : result V :=
  match dict_lookup d k with
  | Some v => Ok v
  | None => Raise (mkExc KeyError [PyStr k])
  end.

(** [d.get(k, default)] *)
Definition dict_get {V : Type} (d : dict V) (k : string) (default : V) : V :=
  match dict_lookup d k with
  | Some v => v
  | None => default
  end.

(** ** xmlschema/components/__init__.py *)

Module Components.

(** An ElementTree node, as far as [XsdNotation] reads it. *)
Record Element : Type := mkElement {
  tag : string;
  attrib : dict string
}.

(** The owning schema, a shared object: the components append to its
    [errors] list. *)
Record XMLSchema : Type := mkSchema {
  target_namespace : string;
  errors : list PyExc
}.

(** Modelled from the spec: the base class [XsdComponent] lives in
    [components/xsdbase.py], which is not among the sources. Section 3 gives
    every component a name, a source node, a global flag and its own
    sequence of diagnostics; [self_id] is the identity of the object. *)
Record XsdNotation : Type := mkNotation {
  self_id : nat;
  name : string;
  elem : Element;
  is_global : bool;
  component_errors : list PyExc
}.

(** A component together with the schema object it refers to as
    [self.schema]. *)
Record State : Type := mkState {
  self : XsdNotation;
  schema : XMLSchema
}.

(** [XsdNotation.__init__]: the name handed to the base constructor is
    [elem.get('name', '')]. *)
Definition __init__ (id : nat) (elem : Element) (schema : XMLSchema)
    (is_global : bool) : State :=
  mkState (mkNotation id (dict_get (attrib elem) "name" "") elem is_global [])
          schema.

(** [self.schema.errors.append(XMLSchemaParseError(message, self))] *)
Definition append_parse_error (st : State) (message : PyVal) : State :=
  mkState (self st)
          (mkSchema (target_namespace (schema st))
                    (errors (schema st) ++
                     [mkExc XMLSchemaParseError [message; PyObj (self_id (self st))]])).

(** [self.name = qname] *)
Definition set_name (st : State) (qname : string) : State :=
  mkState (mkNotation (self_id (self st)) qname (elem (self st))
                      (is_global (self st)) (component_errors (self st)))
          (schema st).

Definition known_attributes : list string := ["id"; "name"; "public"; "system"].

Section Parse.

(** [get_qname] comes from [xmlschema/qnames.py] and the inherited
    [_parse] from [components/xsdbase.py]; neither is among the sources,
    so both are parameters, and both may raise. *)
Variable get_qname : string -> string -> result string.
Variable XsdComponent_parse : State -> result State.

(** [if not self.is_global: ...] *)
Definition check_global (st : State) : State :=
  if negb (is_global (self st)) then
    append_parse_error st (PyStr "a notation declaration must be global.")
  else st.

(** The [try] statement: the lookup [self.elem.attrib['name']] and the
    call of [get_qname] are both inside it, the assignment to [self.name]
    follows them. *)
Definition parse_name (st : State) : result State :=
  try_except
    (local ← dict_getitem (attrib (elem (self st))) "name";
     qname ← get_qname (target_namespace (schema st)) local;
     mret (set_name st qname))
    KeyError
    (fun _ => mret (append_parse_error st (PyStr "a notation must have a 'name'."))).

(** The body of the [for key in self.elem.attrib] loop: both [if]
    statements are inside it. *)
Definition parse_attribute (st : State) (key : string) : State :=
  let st :=
    if negb (bool_decide (key ∈ known_attributes)) then
      append_parse_error st
        (PyFormat "wrong attribute %r for notation definition." [PyStr key])
    else st in
  if negb (dict_contains (attrib (elem (self st))) "public") &&
     negb (dict_contains (attrib (elem (self st))) "system") then
    append_parse_error st
      (PyStr "a notation may have 'public' or 'system' attribute.")
  else st.

Definition parse_attributes (st : State) : State :=
  foldl parse_attribute st (keys (attrib (elem (self st)))).

(** [XsdNotation._parse] *)
Definition _parse (st : State) : result State :=
  st ← XsdComponent_parse st;
  st ← parse_name (check_global st);
  mret (parse_attributes st).

(** The [public] and [system] properties read [self._attrib], which the
    missing base class maintains; they are not modelled. *)

End Parse.

(** *** What a run of [_parse] is compared with *)

(** The diagnostic built as [XMLSchemaParseError(message, self)] for the
    component with identity [id]. *)
Definition parse_error (id : nat) (message : PyVal) : PyExc :=
  mkExc XMLSchemaParseError [message; PyObj id].

(** The messages one pass of the loop records for [key]. *)
Definition attribute_violations (attributes : dict string) (key : string)
    : list PyVal :=
  (if bool_decide (key ∈ known_attributes) then []
   else [PyFormat "wrong attribute %r for notation definition." [PyStr key]]) ++
  (if dict_contains attributes "public" || dict_contains attributes "system"
   then []
   else [PyStr "a notation may have 'public' or 'system' attribute."]).

(** The messages of the violations of a notation in the order in which
    [_parse] meets them: the global check, the name, then the attributes
    one by one. *)
Definition detected_violations (c : XsdNotation) : list PyVal :=
  (if is_global c then [] else [PyStr "a notation declaration must be global."]) ++
  (if dict_contains (attrib (elem c)) "name" then []
   else [PyStr "a notation must have a 'name'."]) ++
  flat_map (attribute_violations (attrib (elem c))) (keys (attrib (elem c))).

(** Is [e] the diagnostic about the unknown attribute [key]? *)
Definition is_wrong_attribute (key : string) (e : PyExc) : bool :=
  match exc_class e, exc_args e with
  | XMLSchemaParseError, PyFormat fmt [PyStr k] :: _ =>
      String.eqb fmt "wrong attribute %r for notation definition." && String.eqb k key
  | _, _ => false
  end.

(** Is [e] the diagnostic about the missing [public] and [system]? *)
Definition is_missing_identifier (e : PyExc) : bool :=
  match exc_class e, exc_args e with
  | XMLSchemaParseError, PyStr s :: _ =>
      String.eqb s "a notation may have 'public' or 'system' attribute."
  | _, _ => false
  end.

(** The reading under which the diagnostics of a parse land on the
    component's own sequence. *)
Definition diagnostics_kept_on_component
    (qname : string -> string -> result string)
    (inherited : State -> result State) (st : State) : Prop :=
  forall st1 st',
    inherited st = Ok st1 ->
    _parse qname inherited st = Ok st' ->
    component_errors (self st') =
    component_errors (self st1) ++
    (parse_error (self_id (self st1)) <$> detected_violations (self st1)).

(** Concrete declarations used in the runs below: a local declaration
    with an attribute outside the grammar, and a declaration without any
    attribute. *)
Definition jpeg_notation : Element :=
  mkElement "notation"
    [("name", "jpeg"); ("public", "image/jpeg"); ("kind", "raster")].

Definition bare_notation : Element := mkElement "notation" [].

Definition images_schema : XMLSchema := mkSchema "urn:images" [].

(** Modelled from the spec: [get_qname] of [xmlschema/qnames.py] is not among
    the sources. Section 3 describes a qualified name as the namespace URI
    plus the local name; this is that pair in the braces notation, the
    local name alone when there is no namespace. *)
Definition get_qname (uri local : string) : result string :=
  if String.eqb uri "" then Ok local
  else Ok ("{" +:+ uri +:+ "}" +:+ local).

(** Modelled from the spec: [XsdComponent._parse] of [components/xsdbase.py]
    is not among the sources and the spec gives it no behaviour of its own;
    the concrete runs below take a base class whose [_parse] does
    nothing. *)
Definition XsdComponent_parse (st : State) : result State := Ok st.

End Components.

(** ** Programs that call out of the package *)

(** The calls that leave the modelled modules, each with the type of what
    it returns. Keyword arguments are a finite map from names to values. *)
Inductive Ext : Type -> Type :=
| fetch_schema_locations (xml_document locations : PyVal) : Ext (PyVal * PyVal)
| instantiate (cls : PyVal) (args : list PyVal) (kw : gmap string PyVal) : Ext PyVal
| method_validate (obj xml_document use_defaults : PyVal) : Ext PyVal
| method_to_dict (obj xml_document : PyVal) (kw : gmap string PyVal) : Ext PyVal
| method_encode (obj data : PyVal) (kw : gmap string PyVal) : Ext PyVal
| json_dump (obj fp : PyVal) (kw : gmap string PyVal) : Ext PyVal
| json_dumps (obj : PyVal) (kw : gmap string PyVal) : Ext string
| json_load (fp : PyVal) (kw : gmap string PyVal) : Ext PyVal
| json_loads (s : PyVal) (kw : gmap string PyVal) : Ext PyVal
| hasattr (obj : PyVal) (attr : string) : Ext bool
| iterate (obj : PyVal) : Ext (list PyVal).

(** A program: it returns, raises, or makes a call and goes on with the
    answer. *)
Inductive Py (R : Type) : Type :=
| Return (r : R)
| Throw (e : PyExc)
| Call {A : Type} (c : Ext A) (k : A -> Py R).
Arguments Return {R} r.
Arguments Throw {R} e.
Arguments Call {R A} c k.

Fixpoint Py_bind {A B : Type} (f : A -> Py B) (p : Py A) : Py B :=
  match p with
  | Return a => f a
  | Throw e => Throw e
  | Call c k => Call c (fun x => Py_bind f (k x))
  end.

#[global] Instance Py_ret : MRet Py := fun A a => Return a.
#[global] Instance Py_mbind : MBind Py := fun A B f p => Py_bind f p.

Definition call {A : Type} (c : Ext A) : Py A := Call c Return.

(** One call made during a run, with the answer it got. *)
Inductive Event : Type :=
| Called {A : Type} (c : Ext A) (r : result A).

(** The world outside: it answers a call knowing the calls made so far, so
    an answer may depend on earlier effects (a file written, a schema
    built). *)
Definition Oracle : Type := list Event -> forall A : Type, Ext A -> result A.

(** Running a program: the calls made, in order, and the outcome. *)
Fixpoint run {R : Type} (world : Oracle) (trace : list Event) (p : Py R)
    : list Event * result R :=
  match p with
  | Return r => (trace, Ok r)
  | Throw e => (trace, Raise e)
  | Call c k =>
      match world trace _ c with
      | Ok a => run world (trace ++ [Called c (Ok a)])%list (k a)
      | Raise e => ((trace ++ [Called c (Raise e)])%list, Raise e)
      end
  end.

(** ** xmlschema/__init__.py *)

Module Api.

(** [isinstance(schema, XMLSchema)] *)
Definition isinstance_XMLSchema (v : PyVal) : bool :=
  match v with
  | PyXMLSchema _ => true
  | _ => false
  end.

(** [v is None] *)
Definition is_None (v : PyVal) : bool :=
  match v with
  | PyNone => true
  | _ => false
  end.

(** [isinstance(obj, tuple)] *)
Definition isinstance_tuple (v : PyVal) : bool :=
  match v with
  | PyTuple _ => true
  | _ => false
  end.

(** [obj[i]] on the items of a tuple *)
Definition getitem (items : list PyVal) (i : nat) : Py PyVal :=
  match items !! i with
  | Some v => Return v
  | None => Throw (mkExc IndexError [PyStr "tuple index out of range"])
  end.

(** [tuple(v)]: the items of a tuple or a list, the characters of a string;
    [None] and booleans are not iterable; for any other object the items
    come from iterating it. *)
Definition tuple (v : PyVal) : Py PyVal :=
  match v with
  | PyTuple items | PyList items => Return (PyTuple items)
  | PyStr s => Return (PyTuple ((fun c => PyStr (String c "")) <$> String.list_ascii_of_string s))
  | PyNone | PyBool _ => Throw (mkExc TypeError [PyStr "object is not iterable"])
  | _ => items ← call (iterate v); mret (PyTuple items)
  end.

(** [kwargs.pop(key, default)]: the value and the dictionary without the
    key. *)
Definition pop (kw : gmap string PyVal) (key : string) (default_value : PyVal)
    : PyVal * gmap string PyVal :=
  (default default_value (kw !! key), delete key kw).

(** The default of the [cls] parameter and the two classes used as
    defaults by [to_json] and [from_json]. *)
Definition XMLSchema : PyVal := PyGlobal "XMLSchema".
Definition float : PyVal := PyGlobal "float".
Definition _ordered_dict_class : PyVal := PyGlobal "_ordered_dict_class".

(** A parameter with a default is an [option]: [None] stands for an omitted
    argument. The [kwargs] of a function never hold the name of one of its
    own parameters. *)

Definition validate (xml_document : PyVal)
    (schema cls use_defaults locations : option PyVal) : Py PyVal :=
  let schema := default PyNone schema in
  let cls := default XMLSchema cls in
  let use_defaults := default (PyBool true) use_defaults in
  let locations := default PyNone locations in
  if isinstance_XMLSchema schema then
    _ ← call (method_validate schema xml_document use_defaults);
    mret PyNone
  else
    '(schema, locations) ←
      (if is_None schema then call (fetch_schema_locations xml_document locations)
       else mret (schema, locations));
    instance ← call (instantiate cls [schema]
                       {[ "validation" := PyStr "strict"; "locations" := locations ]});
    _ ← call (method_validate instance xml_document use_defaults);
    mret PyNone.

Definition to_dict (xml_document : PyVal)
    (schema cls path process_namespaces locations : option PyVal)
    (kwargs : gmap string PyVal) : Py PyVal :=
  let schema := default PyNone schema in
  let cls := default XMLSchema cls in
  let path := default PyNone path in
  let process_namespaces := default (PyBool true) process_namespaces in
  let locations := default PyNone locations in
  schema ←
    (if negb (isinstance_XMLSchema schema) then
       '(schema, locations) ←
         (if is_None schema then call (fetch_schema_locations xml_document locations)
          else mret (schema, locations));
       call (instantiate cls [schema]
               {[ "validation" := PyStr "strict"; "locations" := locations ]})
     else mret schema);
  call (method_to_dict schema xml_document
          (<["path" := path]> (<["process_namespaces" := process_namespaces]> kwargs))).

Definition to_json (xml_document : PyVal)
    (fp schema cls path converter process_namespaces locations : option PyVal)
    (json_options : option (gmap string PyVal))
    (kwargs : gmap string PyVal) : Py PyVal :=
  let fp := default PyNone fp in
  let schema := default PyNone schema in
  let cls := default XMLSchema cls in
  let path := default PyNone path in
  let converter := default PyNone converter in
  let process_namespaces := default (PyBool true) process_namespaces in
  let locations := default PyNone locations in
  schema ←
    (if negb (isinstance_XMLSchema schema) then
       '(schema, locations) ←
         (if is_None schema then call (fetch_schema_locations xml_document locations)
          else mret (schema, locations));
       call (instantiate cls [schema]
               {[ "validation" := PyStr "strict"; "locations" := locations ]})
     else mret schema);
  let json_options := default ∅ json_options in
  let '(decimal_type, kwargs) := pop kwargs "decimal_type" float in
  let '(dict_class, kwargs) := pop kwargs "dict_class" _ordered_dict_class in
  obj ← call (method_to_dict schema xml_document
                (<["path" := path]>
                 (<["decimal_type" := decimal_type]>
                  (<["dict_class" := dict_class]>
                   (<["process_namespaces" := process_namespaces]>
                    (<["converter" := converter]> kwargs))))));
  match obj with
  | PyTuple items =>
      if negb (is_None fp) then
        value ← getitem items 0;
        _ ← call (json_dump value fp kwargs);
        errors ← getitem items 1;
        tuple errors
      else
        value ← getitem items 0;
        text ← call (json_dumps value json_options);
        errors ← getitem items 1;
        errors ← tuple errors;
        mret (PyTuple [PyStr text; errors])
  | _ =>
      if negb (is_None fp) then
        _ ← call (json_dump obj fp json_options);
        mret PyNone
      else
        text ← call (json_dumps obj json_options);
        mret (PyStr text)
  end.

(** [from_json] pops the two hooks from the caller's [json_options]
    dictionary itself; the caller's view of that dictionary after the call
    is not modelled. *)
Definition from_json (source schema : PyVal)
    (path converter : option PyVal)
    (json_options : option (gmap string PyVal))
    (kwargs : gmap string PyVal) : Py PyVal :=
  let path := default PyNone path in
  let converter := default PyNone converter in
  if negb (isinstance_XMLSchema schema) then
    Throw (mkExc TypeError
             [PyFormat "An XMLSchema instance required for 'schema' argument: %r"
                       [schema]])
  else
    let json_options := default ∅ json_options in
    let '(dict_class, kwargs) := pop kwargs "dict_class" _ordered_dict_class in
    let '(object_hook, json_options) :=
      pop json_options "object_hook" _ordered_dict_class in
    let '(object_pairs_hook, json_options) :=
      pop json_options "object_pairs_hook" _ordered_dict_class in
    has_read ← call (hasattr source "read");
    obj ←
      (if has_read : bool then
         call (json_load source
                 (<["object_hook" := object_hook]>
                  (<["object_pairs_hook" := object_pairs_hook]> json_options)))
       else
         call (json_loads source
                 (<["object_hook" := object_hook]>
                  (<["object_pairs_hook" := object_pairs_hook]> json_options))));
    call (method_encode schema obj
            (<["path" := path]>
             (<["converter" := converter]>
              (<["dict_class" := dict_class]> kwargs)))).

End Api.

(** ** Observing a run *)

(** A call to a public entry point with its arguments. *)
Inductive EntryCall : Type :=
| Validate (xml_document : PyVal)
    (schema cls use_defaults locations : option PyVal)
| ToDict (xml_document : PyVal)
    (schema cls path process_namespaces locations : option PyVal)
    (kwargs : gmap string PyVal)
| ToJson (xml_document : PyVal)
    (fp schema cls path converter process_namespaces locations : option PyVal)
    (json_options : option (gmap string PyVal))
    (kwargs : gmap string PyVal)
| FromJson (source schema : PyVal)
    (path converter : option PyVal)
    (json_options : option (gmap string PyVal))
    (kwargs : gmap string PyVal).

Definition entry_point (c : EntryCall) : Py PyVal :=
  match c with
  | Validate d s c u l => Api.validate d s c u l
  | ToDict d s c p n l kw => Api.to_dict d s c p n l kw
  | ToJson d f s c p v n l j kw => Api.to_json d f s c p v n l j kw
  | FromJson src s p v j kw => Api.from_json src s p v j kw
  end.

(** Kinds of calls. *)
Definition is_validation {A : Type} (c : Ext A) : bool :=
  match c with
  | method_validate _ _ _ => true
  | _ => false
  end.

Definition is_acquisition {A : Type} (c : Ext A) : bool :=
  match c with
  | fetch_schema_locations _ _ | instantiate _ _ _ => true
  | _ => false
  end.


(** The items of a list or of a tuple. *)
Definition sequence_items (v : PyVal) : option (list PyVal) :=
  match v with
  | PyList items | PyTuple items => Some items
  | _ => None
  end.

(** The value a decoding or encoding method returned. *)
Definition coded (ev : Event) : option PyVal :=
  match ev with
  | Called c r =>
      match c in Ext A return result A -> option PyVal with
      | method_to_dict _ _ _ | method_encode _ _ _ =>
          fun r => match r with Ok v => Some v | Raise _ => None end
      | _ => fun _ => None
      end r
  end.

Definition codings (trace : list Event) : list PyVal := omap coded trace.

(** The arguments of a call of [json.dump]. *)
Definition json_dump_call (ev : Event) : option (PyVal * PyVal * gmap string PyVal) :=
  match ev with
  | Called (json_dump obj fp kw) _ => Some (obj, fp, kw)
  | Called _ _ => None
  end.

Definition json_dump_calls (trace : list Event)
    : list (PyVal * PyVal * gmap string PyVal) :=
  omap json_dump_call trace.

(** The exception with which a call of the given kind failed. *)
Definition failure (kind : forall A : Type, Ext A -> bool) (ev : Event)
    : option PyExc :=
  match ev with
  | Called c (Raise e) => if kind _ c then Some e else None
  | Called _ (Ok _) => None
  end.

(** *** The outcomes of an entry point *)


















(** [validate] as the interface line reads: nothing, or a validation
    error. *)
Definition nothing_or_validation_error (r : result PyVal) : Prop :=
  r = Ok PyNone \/
  exists e, r = Raise e /\ isinstance e XMLSchemaValidationError = true.

(** *** Worlds for the concrete runs *)

(** A world in which the schema of a document cannot be fetched. *)
Definition offline_world : Oracle := fun _ A c =>
  match c in Ext A return result A with
  | fetch_schema_locations _ _ =>
      Raise (mkExc XMLSchemaURLError [PyStr "cannot access resource"])
  | instantiate _ _ _ => Ok (PyXMLSchema 0)
  | json_dumps _ _ => Ok "{}"
  | hasattr _ _ => Ok false
  | iterate _ => Ok []
  | _ => Ok PyNone
  end.

(** A world whose schemas decode in lax mode: the data [PyObj 1] paired
    with a list holding the one error [PyObj 2]. *)
Definition lax_world : Oracle := fun _ A c =>
  match c in Ext A return result A with
  | fetch_schema_locations _ _ => Ok (PyStr "schema.xsd", PyNone)
  | instantiate _ _ _ => Ok (PyXMLSchema 0)
  | method_to_dict _ _ _ | method_encode _ _ _ =>
      Ok (PyTuple [PyObj 1; PyList [PyObj 2]])
  | json_dumps _ _ => Ok "{}"
  | hasattr _ _ => Ok false
  | iterate _ => Ok []
  | _ => Ok PyNone
  end.




(** ** Further observations *)

(** The classes that [exceptions.py] derives from [XMLSchemaException]. *)
Definition derived_classes : list PyClass :=
  [XMLSchemaOSError; XMLSchemaAttributeError; XMLSchemaTypeError;
   XMLSchemaValueError; XMLSchemaSyntaxError; XMLSchemaKeyError;
   XMLSchemaURLError; XMLSchemaRegexError; XMLSchemaXPathError].

(** The key named by a diagnostic about an unknown attribute. *)
Definition wrong_attribute_key (e : PyExc) : option string :=
  match exc_class e, exc_args e with
  | XMLSchemaParseError, PyFormat fmt [PyStr k] :: _ =>
      if String.eqb fmt "wrong attribute %r for notation definition."
      then Some k else None
  | _, _ => None
  end.

(** Two stand-ins for a [get_qname] that raises: one with an error of the
    [KeyError] family, one with an [IndexError]. *)
Definition get_qname_key_error (uri local : string) : result string :=
  Raise (mkExc XMLSchemaKeyError [PyStr local]).

Definition get_qname_index_error (uri local : string) : result string :=
  Raise (mkExc IndexError [PyStr "string index out of range"]).

(** A declaration in order: global use, a name, an identifier, nothing
    outside the grammar. *)
Definition png_notation : Components.Element :=
  Components.mkElement "notation"
    [("id", "n1"); ("name", "png"); ("system", "viewer.exe")].

(** The kind of the call of an event. *)
Definition of_kind (kind : forall A : Type, Ext A -> bool) (ev : Event) : bool :=
  match ev with
  | Called c _ => kind _ c
  end.

Definition is_method {A : Type} (c : Ext A) : bool :=
  match c with
  | method_validate _ _ _ | method_to_dict _ _ _ | method_encode _ _ _ => true
  | _ => false
  end.

Definition is_json {A : Type} (c : Ext A) : bool :=
  match c with
  | json_dump _ _ _ | json_dumps _ _ | json_load _ _ | json_loads _ _ => true
  | _ => false
  end.


Definition validate_call (ev : Event) : option (PyVal * PyVal * PyVal) :=
  match ev with
  | Called (method_validate obj xml_document use_defaults) _ =>
      Some (obj, xml_document, use_defaults)
  | Called _ _ => None
  end.

Definition decode_call (ev : Event) : option (PyVal * PyVal * gmap string PyVal) :=
  match ev with
  | Called (method_to_dict obj xml_document kw) _ => Some (obj, xml_document, kw)
  | Called _ _ => None
  end.

Definition encode_call (ev : Event) : option (PyVal * PyVal * gmap string PyVal) :=
  match ev with
  | Called (method_encode obj data kw) _ => Some (obj, data, kw)
  | Called _ _ => None
  end.

Definition json_dumps_call (ev : Event) : option (PyVal * gmap string PyVal) :=
  match ev with
  | Called (json_dumps obj kw) _ => Some (obj, kw)
  | Called _ _ => None
  end.

(** The text a call of [json.dumps] returned. *)
Definition json_text (ev : Event) : option string :=
  match ev with
  | Called c r =>
      match c in Ext A return result A -> option string with
      | json_dumps _ _ => fun r => match r with Ok s => Some s | Raise _ => None end
      | _ => fun _ => None
      end r
  end.

(** The object a call of [json.load] or [json.loads] returned. *)
Definition json_loaded (ev : Event) : option PyVal :=
  match ev with
  | Called c r =>
      match c in Ext A return result A -> option PyVal with
      | json_load _ _ | json_loads _ _ =>
          fun r => match r with Ok v => Some v | Raise _ => None end
      | _ => fun _ => None
      end r
  end.

(** The [cls], [schema], [locations] and document arguments of a call of
    an entry point, with their defaults. *)
Definition cls_of (c : EntryCall) : PyVal :=
  match c with
  | Validate _ _ cls _ _ | ToDict _ _ cls _ _ _ _
  | ToJson _ _ _ cls _ _ _ _ _ _ => default Api.XMLSchema cls
  | FromJson _ _ _ _ _ _ => Api.XMLSchema
  end.

Definition schema_of (c : EntryCall) : PyVal :=
  match c with
  | Validate _ schema _ _ _ | ToDict _ schema _ _ _ _ _
  | ToJson _ _ schema _ _ _ _ _ _ _ => default PyNone schema
  | FromJson _ schema _ _ _ _ => schema
  end.

Definition locations_of (c : EntryCall) : PyVal :=
  match c with
  | Validate _ _ _ _ locations | ToDict _ _ _ _ _ locations _
  | ToJson _ _ _ _ _ _ _ locations _ _ => default PyNone locations
  | FromJson _ _ _ _ _ _ => PyNone
  end.

Definition document_of (c : EntryCall) : PyVal :=
  match c with
  | Validate d _ _ _ _ | ToDict d _ _ _ _ _ _ | ToJson d _ _ _ _ _ _ _ _ _ => d
  | FromJson source _ _ _ _ _ => source
  end.

(** The keywords with which a schema is built. *)
Definition strict_keywords (locations : PyVal) : gmap string PyVal :=
  {[ "validation" := PyStr "strict"; "locations" := locations ]}.


(** * Properties *)

(** ** The exception hierarchy *)

Module ExceptionFacts.

(** The bound of [issubclass] is deep enough: searching further finds
    nothing more. *)
Lemma issubclass_depth_enough (c d : PyClass) :
  issubclass_upto 20 c d = issubclass c d.
Proof. destruct c, d; vm_compute; reflexivity. Qed.

(** Every class of [exceptions.py] derives from [XMLSchemaException]; the
    builtin [TypeError] does not. *)
Lemma library_classes_share_base :
  Forall (fun c => issubclass c XMLSchemaException = true)
    [XMLSchemaOSError; XMLSchemaAttributeError; XMLSchemaTypeError;
     XMLSchemaValueError; XMLSchemaSyntaxError; XMLSchemaKeyError;
     XMLSchemaURLError; XMLSchemaRegexError; XMLSchemaXPathError] /\
  issubclass TypeError XMLSchemaException = false.
Proof. split; [repeat constructor | reflexivity]. Qed.

End ExceptionFacts.

(** ** The notation component *)

Module NotationFacts.
Import Components.

Lemma dict_lookup_None {V : Type} (d : dict V) (k : string) :
  dict_lookup d k = None <-> k ∉ keys d.
Proof.
  induction d as [|[k' v] d IH]; simpl.
  - split; [intros _; apply not_elem_of_nil | done].
  - destruct (String.eqb_spec k' k) as [->|Hne].
    + split; [done | intros H; exfalso; apply H; left].
    + rewrite IH, not_elem_of_cons. split; [intros H; split; [congruence | done] | intros [_ H]; done].
Qed.

Lemma dict_contains_lookup {V : Type} (d : dict V) (k : string) :
  dict_contains d k = bool_decide (is_Some (dict_lookup d k)).
Proof.
  unfold dict_contains. apply bool_decide_ext.
  destruct (dict_lookup d k) eqn:E.
  - split; [eauto | intros _].
    destruct (decide (k ∈ keys d)) as [|Hn]; [done|].
    apply dict_lookup_None in Hn. congruence.
  - apply dict_lookup_None in E. split; [done | intros [? ?]; done].
Qed.

Lemma parse_attribute_spec (st : State) (key : string) :
  parse_attribute st key =
  mkState (self st)
    (mkSchema (target_namespace (schema st))
       (errors (schema st) ++
        (parse_error (self_id (self st)) <$>
         attribute_violations (attrib (elem (self st))) key))).
Proof.
  destruct st as [c [tns errs]].
  unfold parse_attribute, attribute_violations, append_parse_error, parse_error.
  destruct (bool_decide (key ∈ known_attributes)); simpl;
    destruct (dict_contains (attrib (elem c)) "public"); simpl;
    destruct (dict_contains (attrib (elem c)) "system"); simpl;
    rewrite ?app_nil_r, <- ?app_assoc; reflexivity.
Qed.

Lemma foldl_parse_attribute (ks : list string) (st : State) :
  foldl parse_attribute st ks =
  mkState (self st)
    (mkSchema (target_namespace (schema st))
       (errors (schema st) ++
        (parse_error (self_id (self st)) <$>
         flat_map (attribute_violations (attrib (elem (self st)))) ks))).
Proof.
  revert st. induction ks as [|k ks IH]; intros st.
  - destruct st as [c [tns errs]]. simpl. by rewrite app_nil_r.
  - simpl foldl. rewrite IH, parse_attribute_spec. simpl.
    rewrite fmap_app, app_assoc. reflexivity.
Qed.

Lemma parse_attributes_spec (st : State) :
  parse_attributes st =
  mkState (self st)
    (mkSchema (target_namespace (schema st))
       (errors (schema st) ++
        (parse_error (self_id (self st)) <$>
         flat_map (attribute_violations (attrib (elem (self st))))
                  (keys (attrib (elem (self st))))))).
Proof. apply foldl_parse_attribute. Qed.

Lemma check_global_spec (st : State) :
  check_global st =
  mkState (self st)
    (mkSchema (target_namespace (schema st))
       (errors (schema st) ++
        (parse_error (self_id (self st)) <$>
         (if is_global (self st) then []
          else [PyStr "a notation declaration must be global."])))).
Proof.
  destruct st as [c [tns errs]]. unfold check_global. simpl.
  destruct (is_global c); simpl; rewrite ?app_nil_r; reflexivity.
Qed.

(** How many diagnostics about the unknown attribute [key] the loop
    records. *)
Lemma count_wrong_attribute_pass (id : nat) (a : dict string) (key k : string) :
  length (List.filter (is_wrong_attribute key)
            (parse_error id <$> attribute_violations a k)) =
  if bool_decide (k ∈ known_attributes) then 0
  else if String.eqb k key then 1 else 0.
Proof.
  unfold attribute_violations.
  destruct (bool_decide (k ∈ known_attributes));
    destruct (dict_contains a "public" || dict_contains a "system");
    cbn; try reflexivity; destruct (String.eqb k key); reflexivity.
Qed.

Lemma count_wrong_attribute (id : nat) (a : dict string) (key : string)
    (ks : list string) :
  key ∉ known_attributes ->
  NoDup ks ->
  length (List.filter (is_wrong_attribute key)
            (parse_error id <$> flat_map (attribute_violations a) ks)) =
  if bool_decide (key ∈ ks) then 1 else 0.
Proof.
  intros Hk Hnd. induction Hnd as [|k ks Hnotin Hnd IH].
  - reflexivity.
  - simpl flat_map. rewrite fmap_app, List.filter_app, length_app, IH.
    rewrite count_wrong_attribute_pass.
    destruct (String.eqb_spec k key) as [->|Hne].
    + rewrite (bool_decide_eq_false_2 (key ∈ known_attributes)) by exact Hk.
      rewrite (bool_decide_eq_false_2 (key ∈ ks)) by exact Hnotin.
      rewrite bool_decide_eq_true_2 by left. reflexivity.
    + assert (Heq : bool_decide (key ∈ k :: ks) = bool_decide (key ∈ ks)).
      { apply bool_decide_ext. rewrite elem_of_cons.
        split; [intros [?|?]; [congruence | done] | by right]. }
      rewrite Heq. destruct (bool_decide (k ∈ known_attributes)); reflexivity.
Qed.

(** The messages that the loop over the attributes is sure to record. *)
Lemma attribute_violations_wrong (a : dict string) (ks : list string) (key : string) :
  key ∈ ks ->
  key ∉ known_attributes ->
  PyFormat "wrong attribute %r for notation definition." [PyStr key]
    ∈ flat_map (attribute_violations a) ks.
Proof.
  intros Hin Hk. apply list_elem_of_In, in_flat_map.
  exists key. split; [by apply list_elem_of_In|].
  apply list_elem_of_In. unfold attribute_violations.
  rewrite bool_decide_eq_false_2 by exact Hk.
  apply elem_of_app. left. left.
Qed.

Lemma attribute_violations_identifier (a : dict string) (ks : list string) :
  ks <> [] ->
  dict_contains a "public" = false ->
  dict_contains a "system" = false ->
  PyStr "a notation may have 'public' or 'system' attribute."
    ∈ flat_map (attribute_violations a) ks.
Proof.
  intros Hne Hp Hs. destruct ks as [|k ks]; [done|].
  simpl. apply elem_of_app. left.
  unfold attribute_violations. rewrite Hp, Hs. simpl.
  apply elem_of_app. right. left.
Qed.

Lemma check_global_self (st : State) : self (check_global st) = self st.
Proof. rewrite check_global_spec. reflexivity. Qed.

Lemma check_global_namespace (st : State) :
  target_namespace (schema (check_global st)) = target_namespace (schema st).
Proof. rewrite check_global_spec. reflexivity. Qed.

Section ParseFacts.

Variable qname : string -> string -> result string.
Variable inherited : State -> result State.

(** The three ways the [try] statement ends normally, and the one way it
    does not. *)
Lemma parse_name_named (st : State) (local q : string) :
  dict_lookup (attrib (elem (self st))) "name" = Some local ->
  qname (target_namespace (schema st)) local = Ok q ->
  parse_name qname st = Ok (set_name st q).
Proof.
  intros Hl Hq. unfold parse_name, dict_getitem. rewrite Hl. simpl.
  rewrite Hq. reflexivity.
Qed.

Lemma parse_name_missing (st : State) :
  dict_lookup (attrib (elem (self st))) "name" = None ->
  parse_name qname st =
  Ok (append_parse_error st (PyStr "a notation must have a 'name'.")).
Proof.
  intros Hl. unfold parse_name, dict_getitem. rewrite Hl. reflexivity.
Qed.

Lemma parse_name_caught (st : State) (local : string) (e : PyExc) :
  dict_lookup (attrib (elem (self st))) "name" = Some local ->
  qname (target_namespace (schema st)) local = Raise e ->
  isinstance e KeyError = true ->
  parse_name qname st =
  Ok (append_parse_error st (PyStr "a notation must have a 'name'.")).
Proof.
  intros Hl Hq He. unfold parse_name, dict_getitem. rewrite Hl. simpl.
  rewrite Hq. simpl. rewrite He. reflexivity.
Qed.

(** Whenever the [try] statement ends normally it leaves the source node,
    the identity, the flag and the component's own list alone, and it
    appends at most the diagnostic about the name. *)
Lemma parse_name_frame (st st' : State) :
  parse_name qname st = Ok st' ->
  elem (self st') = elem (self st) /\
  self_id (self st') = self_id (self st) /\
  is_global (self st') = is_global (self st) /\
  component_errors (self st') = component_errors (self st) /\
  target_namespace (schema st') = target_namespace (schema st) /\
  exists new,
    errors (schema st') = errors (schema st) ++ (parse_error (self_id (self st)) <$> new) /\
    (new = [] \/ new = [PyStr "a notation must have a 'name'."]).
Proof.
  unfold parse_name, dict_getitem.
  destruct (dict_lookup _ _) as [local|]; simpl.
  - destruct (qname _ local) as [q|e]; simpl.
    + intros [= <-]. simpl. repeat split; try reflexivity.
      exists []. simpl. rewrite app_nil_r. auto.
    + destruct (isinstance e KeyError); [|discriminate].
      intros [= <-]. simpl. repeat split; try reflexivity.
      exists [PyStr "a notation must have a 'name'."]. auto.
  - intros [= <-]. simpl. repeat split; try reflexivity.
    exists [PyStr "a notation must have a 'name'."]. auto.
Qed.

Lemma parse_name_returns (st : State) :
  (forall ns local e, qname ns local = Raise e -> isinstance e KeyError = true) ->
  exists st', parse_name qname st = Ok st'.
Proof.
  intros Hq. unfold parse_name, dict_getitem.
  destruct (dict_lookup _ _) as [local|]; simpl; [|eauto].
  destruct (qname _ local) as [q|e] eqn:E; simpl; [eauto|].
  rewrite (Hq _ _ _ E). eauto.
Qed.

(** What the [try] statement does when [get_qname] raises nothing that it
    does not catch. *)
Lemma parse_name_cases (st : State) :
  (forall local e,
      dict_lookup (attrib (elem (self st))) "name" = Some local ->
      qname (target_namespace (schema st)) local = Raise e ->
      isinstance e KeyError = true) ->
  exists st2 new,
    parse_name qname st = Ok st2 /\
    elem (self st2) = elem (self st) /\
    self_id (self st2) = self_id (self st) /\
    errors (schema st2) =
      errors (schema st) ++ (parse_error (self_id (self st)) <$> new) /\
    (dict_lookup (attrib (elem (self st))) "name" = None ->
     new = [PyStr "a notation must have a 'name'."]).
Proof.
  intros Hq.
  destruct (dict_lookup (attrib (elem (self st))) "name") as [local|] eqn:E.
  - destruct (qname (target_namespace (schema st)) local) as [q|e] eqn:Eq.
    + exists (set_name st q), []. split; [exact (parse_name_named st local q E Eq)|].
      simpl. rewrite app_nil_r. repeat split. discriminate.
    + exists (append_parse_error st (PyStr "a notation must have a 'name'.")),
             [PyStr "a notation must have a 'name'."].
      split; [exact (parse_name_caught st local e E Eq (Hq local e eq_refl Eq))|].
      repeat split.
  - exists (append_parse_error st (PyStr "a notation must have a 'name'.")),
           [PyStr "a notation must have a 'name'."].
    split; [exact (parse_name_missing st E)|]. repeat split.
Qed.

End ParseFacts.

Section NotationClaims.

Variable qname : string -> string -> result string.
Variable inherited : State -> result State.

Lemma parse_unfold (st st1 st2 : State) :
  inherited st = Ok st1 ->
  parse_name qname (check_global st1) = Ok st2 ->
  _parse qname inherited st = Ok (parse_attributes st2).
Proof.
  intros H1 H2. unfold _parse. rewrite H1. simpl. rewrite H2. reflexivity.
Qed.

(** The errors of the schema after the three steps, given what the [try]
    statement appended. *)
Lemma parse_steps_errors (st1 st2 : State) (new : list PyVal) :
  elem (self st2) = elem (self st1) ->
  self_id (self st2) = self_id (self st1) ->
  errors (schema st2) =
    errors (schema (check_global st1)) ++ (parse_error (self_id (self st1)) <$> new) ->
  errors (schema (parse_attributes st2)) =
  errors (schema st1) ++
  (parse_error (self_id (self st1)) <$>
     ((if is_global (self st1) then []
       else [PyStr "a notation declaration must be global."]) ++
      new ++
      flat_map (attribute_violations (attrib (elem (self st1))))
               (keys (attrib (elem (self st1)))))).
Proof.
  intros He Hi Herr. rewrite parse_attributes_spec. simpl.
  rewrite Herr, check_global_spec, He, Hi. simpl.
  rewrite !fmap_app, <- !app_assoc. reflexivity.
Qed.

(** C4. [_parse] raises nothing of its own. An exception leaves it only
    when the inherited [_parse] raised it, or when [get_qname] raised it
    for the [name] attribute and it is no [KeyError]. In every other case
    [_parse] returns, and each violation it detected is on the schema's
    error list as a parse error for this component: a declaration that is
    not global, a missing [name], each attribute outside [id], [name],
    [public], [system], and, the element having attributes, the lack of
    both [public] and [system]. *)
Theorem notation_parse_never_raises (st : State) :
  (forall e,
      _parse qname inherited st = Raise e ->
      inherited st = Raise e \/
      exists st1 local,
        inherited st = Ok st1 /\
        dict_lookup (attrib (elem (self st1))) "name" = Some local /\
        qname (target_namespace (schema st1)) local = Raise e /\
        isinstance e KeyError = false) /\
  (forall st1,
      inherited st = Ok st1 ->
      (forall local e,
          dict_lookup (attrib (elem (self st1))) "name" = Some local ->
          qname (target_namespace (schema st1)) local = Raise e ->
          isinstance e KeyError = true) ->
      exists st' messages,
        _parse qname inherited st = Ok st' /\
        errors (schema st') =
          errors (schema st1) ++ (parse_error (self_id (self st1)) <$> messages) /\
        (is_global (self st1) = false ->
         PyStr "a notation declaration must be global." ∈ messages) /\
        (dict_contains (attrib (elem (self st1))) "name" = false ->
         PyStr "a notation must have a 'name'." ∈ messages) /\
        (forall key,
            key ∈ keys (attrib (elem (self st1))) ->
            key ∉ known_attributes ->
            PyFormat "wrong attribute %r for notation definition." [PyStr key]
              ∈ messages) /\
        (keys (attrib (elem (self st1))) <> [] ->
         dict_contains (attrib (elem (self st1))) "public" = false ->
         dict_contains (attrib (elem (self st1))) "system" = false ->
         PyStr "a notation may have 'public' or 'system' attribute." ∈ messages)).
Proof.
  split.
  - intros e. unfold _parse.
    destruct (inherited st) as [st1|e1] eqn:Hbase; simpl; [|intros [= <-]; by left].
    unfold parse_name, dict_getitem.
    rewrite check_global_self, check_global_namespace.
    destruct (dict_lookup (attrib (elem (self st1))) "name") as [local|] eqn:E;
      simpl; [|discriminate].
    destruct (qname (target_namespace (schema st1)) local) as [q|e2] eqn:Eq;
      simpl; [discriminate|].
    destruct (isinstance e2 KeyError) eqn:Ek; simpl; [discriminate|].
    intros [= <-]. right. exists st1, local. auto.
  - intros st1 Hbase Hq.
    destruct (parse_name_cases qname (check_global st1))
      as (st2 & new & H2 & He & Hi & Herr & Hnew).
    { rewrite check_global_self, check_global_namespace. exact Hq. }
    rewrite check_global_self in He, Hi, Herr, Hnew.
    eexists _, _. split; [exact (parse_unfold st st1 st2 Hbase H2)|].
    split; [exact (parse_steps_errors st1 st2 new He Hi Herr)|].
    split_and!.
    + intros ->. apply elem_of_app. left. left.
    + intros Hn. rewrite dict_contains_lookup in Hn.
      apply bool_decide_eq_false in Hn.
      rewrite Hnew.
      * apply elem_of_app. right. apply elem_of_app. left. left.
      * destruct (dict_lookup _ _); [exfalso; apply Hn; eauto | reflexivity].
    + intros key Hin Hk. apply elem_of_app. right. apply elem_of_app. right.
      exact (attribute_violations_wrong _ _ key Hin Hk).
    + intros Hne Hp Hs. apply elem_of_app. right. apply elem_of_app. right.
      exact (attribute_violations_identifier _ _ Hne Hp Hs).
Qed.

(** What the whole of [_parse] leaves behind when the qualified name of a
    present [name] attribute can be formed. *)
Lemma parse_outcome (st st1 : State) :
  inherited st = Ok st1 ->
  (forall local,
      dict_lookup (attrib (elem (self st1))) "name" = Some local ->
      exists q, qname (target_namespace (schema st1)) local = Ok q) ->
  exists st2,
    _parse qname inherited st = Ok (parse_attributes st2) /\
    elem (self st2) = elem (self st1) /\
    self_id (self st2) = self_id (self st1) /\
    component_errors (self st2) = component_errors (self st1) /\
    name (self st2) =
      match dict_lookup (attrib (elem (self st1))) "name" with
      | Some local =>
          match qname (target_namespace (schema st1)) local with
          | Ok q => q
          | Raise _ => name (self st1)
          end
      | None => name (self st1)
      end /\
    errors (schema (parse_attributes st2)) =
      errors (schema st1) ++
      (parse_error (self_id (self st1)) <$> detected_violations (self st1)).
Proof.
  intros Hbase Hq. unfold detected_violations.
  rewrite (dict_contains_lookup _ "name").
  destruct (dict_lookup (attrib (elem (self st1))) "name") as [local|] eqn:E.
  - destruct (Hq local eq_refl) as [q Hq']. rewrite Hq'.
    assert (H2 : parse_name qname (check_global st1) =
                 Ok (set_name (check_global st1) q)).
    { apply parse_name_named with (local := local).
      - rewrite check_global_self. exact E.
      - rewrite check_global_namespace. exact Hq'. }
    exists (set_name (check_global st1) q).
    split; [exact (parse_unfold st st1 _ Hbase H2)|].
    simpl. rewrite check_global_self. repeat split.
    refine (parse_steps_errors st1 _ [] _ _ _); simpl;
      rewrite ?check_global_self, ?app_nil_r; reflexivity.
  - assert (H2 : parse_name qname (check_global st1) =
                 Ok (append_parse_error (check_global st1)
                       (PyStr "a notation must have a 'name'."))).
    { apply parse_name_missing. rewrite check_global_self. exact E. }
    eexists. split; [exact (parse_unfold st st1 _ Hbase H2)|].
    simpl. rewrite check_global_self. repeat split.
    refine (parse_steps_errors st1 _ [PyStr "a notation must have a 'name'."] _ _ _);
      simpl; rewrite ?check_global_self; reflexivity.
Qed.

(** C5, as the code has it. Every diagnostic of a notation declaration is
    appended, in the order in which the violations are met, to the error
    list of the owning schema; what that list held before is kept, each
    diagnostic names the component, and the component's own sequence is
    left as it was. *)
Theorem notation_diagnostics_on_schema (st st1 : State) :
  inherited st = Ok st1 ->
  (forall local,
      dict_lookup (attrib (elem (self st1))) "name" = Some local ->
      exists q, qname (target_namespace (schema st1)) local = Ok q) ->
  exists st',
    _parse qname inherited st = Ok st' /\
    errors (schema st') =
      errors (schema st1) ++
      (parse_error (self_id (self st1)) <$> detected_violations (self st1)) /\
    component_errors (self st') = component_errors (self st1).
Proof.
  intros Hbase Hq.
  destruct (parse_outcome st st1 Hbase Hq) as (st2 & Hp & _ & _ & Hc & _ & Herr).
  exists (parse_attributes st2). split; [exact Hp|]. split; [exact Herr|].
  rewrite parse_attributes_spec. exact Hc.
Qed.

(** C8. A notation built from an element with a [name] attribute has,
    after parsing, the qualified name that [get_qname] forms from the
    schema's target namespace and that attribute; built from an element
    without one, its name is still the empty string. *)
Theorem notation_name_after_parse
    (id : nat) (el : Element) (sch : XMLSchema) (g : bool) (st1 : State) :
  inherited (__init__ id el sch g) = Ok st1 ->
  self st1 = self (__init__ id el sch g) ->
  target_namespace (schema st1) = target_namespace sch ->
  match dict_lookup (attrib el) "name" with
  | Some local =>
      forall q, qname (target_namespace sch) local = Ok q ->
      exists st', _parse qname inherited (__init__ id el sch g) = Ok st' /\
                  name (self st') = q
  | None =>
      exists st', _parse qname inherited (__init__ id el sch g) = Ok st' /\
                  name (self st') = ""
  end.
Proof.
  intros Hbase Hself Hns.
  assert (Hel : elem (self st1) = el) by (rewrite Hself; reflexivity).
  destruct (dict_lookup (attrib el) "name") as [local|] eqn:E.
  - intros q Hq.
    destruct (parse_outcome _ st1 Hbase) as (st2 & Hp & _ & _ & _ & Hn & _).
    { rewrite Hel, Hns, E. intros ? [= <-]. eauto. }
    exists (parse_attributes st2). split; [exact Hp|].
    rewrite parse_attributes_spec. simpl. rewrite Hn, Hel, Hns, E, Hq. reflexivity.
  - destruct (parse_outcome _ st1 Hbase) as (st2 & Hp & _ & _ & _ & Hn & _).
    { rewrite Hel, E. discriminate. }
    exists (parse_attributes st2). split; [exact Hp|].
    rewrite parse_attributes_spec. simpl. rewrite Hn, Hel, E, Hself.
    unfold __init__, dict_get. simpl. rewrite E. reflexivity.
Qed.

(** C7. An attribute of a notation element whose key is none of [id],
    [name], [public], [system] gets exactly one "wrong attribute"
    diagnostic for that key, and parsing goes on to the end: [_parse]
    returns. *)
Theorem unknown_attribute_recorded_once (st st1 : State) (key : string) :
  inherited st = Ok st1 ->
  (forall ns local e, qname ns local = Raise e -> isinstance e KeyError = true) ->
  dict_wf (attrib (elem (self st1))) ->
  key ∈ keys (attrib (elem (self st1))) ->
  key ∉ known_attributes ->
  exists st' new,
    _parse qname inherited st = Ok st' /\
    errors (schema st') = errors (schema st1) ++ new /\
    length (List.filter (is_wrong_attribute key) new) = 1.
Proof.
  intros Hbase Hq Hwf Hin Hunknown.
  destruct (parse_name_returns qname (check_global st1) Hq) as [st2 H2].
  destruct (parse_name_frame qname _ _ H2)
    as (He & Hi & _ & _ & _ & new & Herr & Hnew).
  rewrite check_global_self in He, Hi, Herr.
  eexists _, _. split; [exact (parse_unfold st st1 st2 Hbase H2)|].
  split; [exact (parse_steps_errors st1 st2 new He Hi Herr)|].
  rewrite !fmap_app, !List.filter_app, !length_app.
  rewrite (count_wrong_attribute _ _ _ _ Hunknown Hwf).
  rewrite bool_decide_eq_true_2 by exact Hin.
  destruct (is_global (self st1)), Hnew as [-> | ->]; reflexivity.
Qed.

End NotationClaims.

Lemma notation_parse_never_raises_witness :
  exists st' messages,
    _parse get_qname XsdComponent_parse (__init__ 1 jpeg_notation images_schema false)
      = Ok st' /\
    errors (schema st') =
      errors images_schema ++ (parse_error 1 <$> messages) /\
    (false = false -> PyStr "a notation declaration must be global." ∈ messages) /\
    (dict_contains (attrib jpeg_notation) "name" = false ->
     PyStr "a notation must have a 'name'." ∈ messages) /\
    (forall key,
        key ∈ keys (attrib jpeg_notation) ->
        key ∉ known_attributes ->
        PyFormat "wrong attribute %r for notation definition." [PyStr key]
          ∈ messages) /\
    (keys (attrib jpeg_notation) <> [] ->
     dict_contains (attrib jpeg_notation) "public" = false ->
     dict_contains (attrib jpeg_notation) "system" = false ->
     PyStr "a notation may have 'public' or 'system' attribute." ∈ messages).
Proof.
  apply (proj2 (notation_parse_never_raises get_qname XsdComponent_parse
                  (__init__ 1 jpeg_notation images_schema false))
           (__init__ 1 jpeg_notation images_schema false) eq_refl).
  intros local e _. simpl. discriminate.
Defined.

Lemma notation_diagnostics_on_schema_witness :
  exists st',
    _parse get_qname XsdComponent_parse (__init__ 1 jpeg_notation images_schema false)
      = Ok st' /\
    errors (schema st') =
      [parse_error 1 (PyStr "a notation declaration must be global.");
       parse_error 1 (PyFormat "wrong attribute %r for notation definition."
                               [PyStr "kind"])] /\
    component_errors (self st') = [].
Proof.
  apply (notation_diagnostics_on_schema get_qname XsdComponent_parse
           (__init__ 1 jpeg_notation images_schema false)
           (__init__ 1 jpeg_notation images_schema false)).
  - reflexivity.
  - intros local _. exists ("{urn:images}" +:+ local). reflexivity.
Defined.

Lemma notation_name_after_parse_witness :
  exists st',
    _parse get_qname XsdComponent_parse (__init__ 1 jpeg_notation images_schema true)
      = Ok st' /\
    name (self st') = "{urn:images}jpeg".
Proof.
  apply (notation_name_after_parse get_qname XsdComponent_parse
           1 jpeg_notation images_schema true
           (__init__ 1 jpeg_notation images_schema true)
           eq_refl eq_refl eq_refl "{urn:images}jpeg" eq_refl).
Defined.

Lemma unknown_attribute_recorded_once_witness :
  exists st' new,
    _parse get_qname XsdComponent_parse (__init__ 1 jpeg_notation images_schema true)
      = Ok st' /\
    errors (schema st') = errors images_schema ++ new /\
    length (List.filter (is_wrong_attribute "kind") new) = 1.
Proof.
  apply (unknown_attribute_recorded_once get_qname XsdComponent_parse
           (__init__ 1 jpeg_notation images_schema true)
           (__init__ 1 jpeg_notation images_schema true) "kind").
  - reflexivity.
  - intros ns local e. unfold get_qname.
    destruct (String.eqb ns ""); discriminate.
  - apply (bool_decide_unpack _). vm_compute. exact I.
  - apply (bool_decide_unpack _). vm_compute. exact I.
  - apply (bool_decide_unpack _). vm_compute. exact I.
Defined.

(** C5, as stated, fails: a local declaration that is otherwise in order
    gets its diagnostic on the schema's list, and the component's own
    sequence stays empty. *)
Lemma notation_diagnostics_not_on_component :
  ~ diagnostics_kept_on_component get_qname XsdComponent_parse
      (__init__ 1 (mkElement "notation" [("name", "jpeg"); ("public", "image/jpeg")])
                images_schema false).
Proof.
  intros H. specialize (H _ _ eq_refl eq_refl). vm_compute in H. discriminate H.
Qed.

(** C1, at the input on which the code departs from it: a declaration
    without any attribute lacks both [public] and [system], and the only
    diagnostic recorded is the one about the name, because the check of the
    two identifiers sits inside the loop over the attributes. *)
Theorem bare_notation_identifier_check_skipped (id : nat) (g : bool) :
  exists st',
    _parse get_qname XsdComponent_parse (__init__ id bare_notation images_schema g)
      = Ok st' /\
    dict_contains (attrib (elem (self st'))) "public" = false /\
    dict_contains (attrib (elem (self st'))) "system" = false /\
    List.filter is_missing_identifier (errors (schema st')) = [].
Proof.
  destruct g; eexists; (split; [reflexivity|]); repeat split; reflexivity.
Qed.

End NotationFacts.


(** ** The entry points *)

Module ApiFacts.
Import Api.

(** Running a sequence runs its first part, then the rest on the trace so
    far. *)
Lemma run_bind {A B : Type} (world : Oracle) (p : Py A) (f : A -> Py B)
    (trace : list Event) :
  run world trace (p ≫= f) =
  match run world trace p with
  | (trace', Ok a) => run world trace' (f a)
  | (trace', Raise e) => (trace', Raise e)
  end.
Proof.
  revert trace. induction p as [a|e|T c k IH]; intros trace; simpl.
  - reflexivity.
  - reflexivity.
  - destruct (world trace T c) as [x|e]; [apply IH | reflexivity].
Qed.

(** C9. Given a schema instance, [validate] and [to_dict] are one call of
    the method of that very instance: whatever [cls] and [locations] are,
    the program is the same, and in every world the trace holds that call
    and no other, so nothing is fetched and nothing is built. *)
Theorem schema_instance_used_directly
    (world : Oracle) (id : nat) (xml_document : PyVal)
    (cls use_defaults path process_namespaces locations : option PyVal)
    (kwargs : gmap string PyVal) :
  let given := PyXMLSchema id in
  let validation :=
    method_validate given xml_document (default (PyBool true) use_defaults) in
  let decoding :=
    method_to_dict given xml_document
      (<["path" := default PyNone path]>
       (<["process_namespaces" := default (PyBool true) process_namespaces]> kwargs)) in
  validate xml_document (Some given) cls use_defaults locations =
    (_ ← call validation; mret PyNone) /\
  to_dict xml_document (Some given) cls path process_namespaces locations kwargs =
    call decoding /\
  (run world [] (validate xml_document (Some given) cls use_defaults locations)).1 =
    [Called validation (world [] _ validation)] /\
  (run world []
     (to_dict xml_document (Some given) cls path process_namespaces locations kwargs)).1 =
    [Called decoding (world [] _ decoding)].
Proof.
  simpl. repeat split.
  - unfold validate, call. simpl. destruct (world [] PyVal _); reflexivity.
  - unfold to_dict, call. simpl. destruct (world [] PyVal _); reflexivity.
Qed.

(** C3, at the input on which the code departs from it: handed a path where
    a schema instance is required, [from_json] raises the builtin
    [TypeError] before calling anything, and that class is outside the
    family of [XMLSchemaException], although [XMLSchemaTypeError] exists. *)
Theorem from_json_raises_builtin_TypeError
    (world : Oracle) (source : PyVal) (location : string)
    (path converter : option PyVal)
    (json_options : option (gmap string PyVal)) (kwargs : gmap string PyVal) :
  exists e,
    run world [] (from_json source (PyStr location) path converter json_options kwargs)
      = ([], Raise e) /\
    exc_class e = TypeError /\
    isinstance e XMLSchemaException = false /\
    issubclass XMLSchemaTypeError XMLSchemaException = true /\
    issubclass XMLSchemaTypeError TypeError = true.
Proof.
  eexists. split; [reflexivity|]. repeat split; vm_compute; reflexivity.
Qed.

(** One step of a run: case on the answer of the next call. *)
Ltac answer world :=
  match goal with
  | |- context [world ?trace ?A ?c] =>
      let E := fresh "E" in
      destruct (world trace A c) eqn:E; simpl
  end.

(** C6, as the code has it. [validate] never returns a value: in every
    world it returns [None] or raises. It returns [None] only after the
    [validate] method of the schema, the instance given or the one built
    from [cls], has returned for the caller's document, so the document is
    valid. What it raises is what that method raised for the document or,
    when no schema instance was given, what the fetching or the building
    of the schema raised. [use_defaults] goes to the method as given, and
    leaving it out is passing [True]. *)
Theorem validate_returns_nothing
    (world : Oracle) (xml_document : PyVal)
    (schema cls use_defaults locations : option PyVal) :
  validate xml_document schema cls None locations =
    validate xml_document schema cls (Some (PyBool true)) locations /\
  let out := run world [] (validate xml_document schema cls use_defaults locations) in
  let flag := default (PyBool true) use_defaults in
  (exists obj r,
      out.2 = Ok PyNone /\
      last out.1 = Some (Called (method_validate obj xml_document flag) (Ok r)) /\
      if isinstance_XMLSchema (default PyNone schema) then obj = default PyNone schema
      else exists source kw,
          Called (instantiate (default XMLSchema cls) [source] kw) (Ok obj) ∈ out.1) \/
  exists e,
    out.2 = Raise e /\
    ((exists obj,
         last out.1 = Some (Called (method_validate obj xml_document flag) (Raise e))) \/
     (isinstance_XMLSchema (default PyNone schema) = false /\
      last out.1 ≫= failure (@is_acquisition) = Some e)).
Proof.
  split; [reflexivity|].
  unfold validate, call.
  destruct (isinstance_XMLSchema (default PyNone schema)) eqn:Hinst; simpl.
  - answer world; [left; eauto | right; eauto 6].
  - destruct (is_None (default PyNone schema)); simpl.
    + answer world; [|right; eauto].
      destruct a as [schema' locations']. simpl.
      answer world; [|right; eauto].
      answer world; [left | right; eauto 6].
      eexists _, _. split; [reflexivity|]. split; [reflexivity|].
      eexists _, _. apply elem_of_cons. right. left.
    + answer world; [|right; eauto].
      answer world; [left | right; eauto 6].
      eexists _, _. split; [reflexivity|]. split; [reflexivity|].
      eexists _, _. left.
Qed.

(** C6, as stated, fails: with no schema given and the document's schema
    out of reach, [validate] raises the error of the fetcher, which is no
    validation error. *)
Lemma validate_raises_other_errors :
  ~ nothing_or_validation_error
      (run offline_world [] (validate (PyStr "document.xml") None None None None)).2.
Proof.
  intros [H | (e & H & He)].
  - discriminate H.
  - injection H as <-. vm_compute in He. discriminate He.
Qed.


















End ApiFacts.
(** * Further properties *)

(** ** The exception classes *)

Module ExceptionExtras.

(** X1. Each class that [exceptions.py] derives from [XMLSchemaException]
    is a subclass of that base and of every class written in its [class]
    statement, so a handler for the base or for the builtin catches it. *)
Theorem derived_classes_caught_by_bases (c b : PyClass) :
  c ∈ derived_classes ->
  b ∈ bases c ->
  issubclass c XMLSchemaException = true /\
  issubclass c b = true /\
  issubclass c Exception = true.
Proof.
  intros Hc Hb. unfold derived_classes in Hc.
  repeat (apply elem_of_cons in Hc as [-> | Hc]);
    try (by apply elem_of_nil in Hc);
    simpl in Hb;
    repeat (apply elem_of_cons in Hb as [-> | Hb]);
    try (by apply elem_of_nil in Hb);
    repeat split; reflexivity.
Qed.

Lemma derived_classes_caught_by_bases_witness :
  issubclass XMLSchemaKeyError XMLSchemaException = true /\
  issubclass XMLSchemaKeyError KeyError = true /\
  issubclass XMLSchemaKeyError Exception = true.
Proof.
  apply (derived_classes_caught_by_bases XMLSchemaKeyError KeyError).
  - apply (bool_decide_unpack _). vm_compute. exact I.
  - apply (bool_decide_unpack _). vm_compute. exact I.
Defined.

(** X2. The derived classes of [exceptions.py] are siblings: none of them
    is a subclass of another, so a handler for [XMLSchemaValueError] does
    not catch an [XMLSchemaRegexError] or an [XMLSchemaXPathError], although
    all three are [ValueError]s. *)
Theorem derived_classes_are_siblings (c d : PyClass) :
  c ∈ derived_classes ->
  d ∈ derived_classes ->
  c ≠ d ->
  issubclass c d = false.
Proof.
  intros Hc Hd Hne. unfold derived_classes in Hc, Hd.
  repeat (apply elem_of_cons in Hc as [-> | Hc]);
    try (by apply elem_of_nil in Hc);
    repeat (apply elem_of_cons in Hd as [-> | Hd]);
    try (by apply elem_of_nil in Hd);
    first [reflexivity | contradiction].
Qed.

Lemma derived_classes_are_siblings_witness :
  issubclass XMLSchemaRegexError XMLSchemaValueError = false.
Proof.
  apply (derived_classes_are_siblings XMLSchemaRegexError XMLSchemaValueError).
  - apply (bool_decide_unpack _). vm_compute. exact I.
  - apply (bool_decide_unpack _). vm_compute. exact I.
  - discriminate.
Defined.

End ExceptionExtras.

(** ** More on the notation component *)

Module NotationExtras.
Import Components NotationFacts.

Lemma count_missing_identifier (id : nat) (a : dict string) (ks : list string) :
  length (List.filter is_missing_identifier
            (parse_error id <$> flat_map (attribute_violations a) ks)) =
  if dict_contains a "public" || dict_contains a "system" then 0 else length ks.
Proof.
  induction ks as [|k ks IH].
  - simpl. by destruct (_ || _).
  - simpl flat_map. rewrite fmap_app, List.filter_app, length_app, IH.
    unfold attribute_violations.
    destruct (bool_decide (k ∈ known_attributes));
      destruct (dict_contains a "public" || dict_contains a "system");
      reflexivity.
Qed.

Lemma wrong_attribute_keys (id : nat) (a : dict string) (ks : list string) :
  omap wrong_attribute_key
    (parse_error id <$> flat_map (attribute_violations a) ks) =
  List.filter (fun k => negb (bool_decide (k ∈ known_attributes))) ks.
Proof.
  induction ks as [|k ks IH]; [reflexivity|].
  simpl flat_map. rewrite fmap_app, omap_app, IH. simpl List.filter.
  unfold attribute_violations.
  destruct (bool_decide (k ∈ known_attributes));
    destruct (dict_contains a "public" || dict_contains a "system");
    reflexivity.
Qed.

Lemma no_attribute_violations (a : dict string) (ks : list string) :
  dict_contains a "public" || dict_contains a "system" = true ->
  Forall (fun k => k ∈ known_attributes) ks ->
  flat_map (attribute_violations a) ks = [].
Proof.
  intros Hid Hks. induction Hks as [|k ks Hk _ IH]; [reflexivity|].
  simpl. rewrite IH. unfold attribute_violations.
  rewrite Hid, bool_decide_eq_true_2 by exact Hk. reflexivity.
Qed.

Section Extras.

Variable qname : string -> string -> result string.
Variable inherited : State -> result State.

(** A run of [_parse] that returns went through the three steps. *)
Lemma parse_inversion (st st1 st' : State) :
  inherited st = Ok st1 ->
  _parse qname inherited st = Ok st' ->
  exists st2,
    parse_name qname (check_global st1) = Ok st2 /\ st' = parse_attributes st2.
Proof.
  intros Hbase. unfold _parse. rewrite Hbase. simpl.
  destruct (parse_name qname (check_global st1)) as [st2|e]; simpl;
    [intros [= <-]; eauto | discriminate].
Qed.

(** X3. When neither [public] nor [system] is present, the diagnostic about
    the missing identifier is recorded once for every attribute of the
    element, and not at all when one of the two is present. *)
Theorem missing_identifier_recorded_per_attribute (st st1 : State) :
  inherited st = Ok st1 ->
  (forall ns local e, qname ns local = Raise e -> isinstance e KeyError = true) ->
  exists st' new,
    _parse qname inherited st = Ok st' /\
    errors (schema st') = errors (schema st1) ++ new /\
    length (List.filter is_missing_identifier new) =
      if dict_contains (attrib (elem (self st1))) "public" ||
         dict_contains (attrib (elem (self st1))) "system"
      then 0 else length (attrib (elem (self st1))).
Proof.
  intros Hbase Hq.
  destruct (parse_name_returns qname (check_global st1) Hq) as [st2 H2].
  destruct (parse_name_frame qname _ _ H2)
    as (He & Hi & _ & _ & _ & new & Herr & Hnew).
  rewrite check_global_self in He, Hi, Herr.
  eexists _, _. split; [exact (parse_unfold qname inherited st st1 st2 Hbase H2)|].
  split; [exact (parse_steps_errors st1 st2 new He Hi Herr)|].
  rewrite !fmap_app, !List.filter_app, !length_app.
  rewrite count_missing_identifier. unfold keys. rewrite length_map.
  destruct (is_global (self st1)), Hnew as [-> | ->]; reflexivity.
Qed.

(** X4. A declaration in order (global, with a name that [get_qname]
    accepts, with [public] or [system], and with no attribute outside the
    grammar) adds nothing to the schema's errors and gets its qualified
    name. *)
Theorem clean_notation_records_nothing (st st1 : State) (local q : string) :
  inherited st = Ok st1 ->
  is_global (self st1) = true ->
  dict_lookup (attrib (elem (self st1))) "name" = Some local ->
  qname (target_namespace (schema st1)) local = Ok q ->
  dict_contains (attrib (elem (self st1))) "public" ||
    dict_contains (attrib (elem (self st1))) "system" = true ->
  Forall (fun k => k ∈ known_attributes) (keys (attrib (elem (self st1)))) ->
  exists st',
    _parse qname inherited st = Ok st' /\
    errors (schema st') = errors (schema st1) /\
    name (self st') = q.
Proof.
  intros Hbase Hg Hl Hq Hid Hks.
  destruct (parse_outcome qname inherited st st1 Hbase)
    as (st2 & Hp & _ & _ & _ & Hn & Herr).
  { intros l Hl'. rewrite Hl in Hl'. injection Hl' as <-. eauto. }
  exists (parse_attributes st2). split; [exact Hp|]. split.
  - rewrite Herr. unfold detected_violations.
    rewrite Hg, (dict_contains_lookup _ "name"), Hl.
    rewrite (no_attribute_violations _ _ Hid Hks). simpl. apply app_nil_r.
  - rewrite parse_attributes_spec. simpl. rewrite Hn, Hl, Hq. reflexivity.
Qed.

(** What a [_parse] that returns leaves as it was. *)
Lemma parse_frame (st st1 st' : State) :
  inherited st = Ok st1 ->
  _parse qname inherited st = Ok st' ->
  elem (self st') = elem (self st1) /\
  self_id (self st') = self_id (self st1) /\
  is_global (self st') = is_global (self st1) /\
  component_errors (self st') = component_errors (self st1) /\
  target_namespace (schema st') = target_namespace (schema st1) /\
  exists new, errors (schema st') = errors (schema st1) ++ new.
Proof.
  intros Hbase Hp.
  destruct (parse_inversion st st1 st' Hbase Hp) as (st2 & H2 & ->).
  destruct (parse_name_frame qname _ _ H2)
    as (He & Hi & Hg & Hc & Hn & new & Herr & _).
  rewrite check_global_self in He, Hi, Hg, Hc, Herr.
  rewrite check_global_namespace in Hn.
  repeat split;
    try (rewrite parse_attributes_spec; simpl; assumption).
  eexists. exact (parse_steps_errors st1 st2 new He Hi Herr).
Qed.

(** X5. Whatever the declaration, a [_parse] that returns has changed
    nothing but the name of the component and the error list of the schema:
    the source node, the identity, the global flag, the component's own
    sequence and the target namespace are as the inherited [_parse] left
    them, and the errors the schema already held are still its first
    errors. *)
Theorem parse_touches_name_and_errors_only (st st1 st' : State) :
  inherited st = Ok st1 ->
  _parse qname inherited st = Ok st' ->
  elem (self st') = elem (self st1) /\
  self_id (self st') = self_id (self st1) /\
  is_global (self st') = is_global (self st1) /\
  component_errors (self st') = component_errors (self st1) /\
  target_namespace (schema st') = target_namespace (schema st1) /\
  exists new, errors (schema st') = errors (schema st1) ++ new.
Proof. exact (parse_frame st st1 st'). Qed.

(** X6. An exception of [get_qname] that is no [KeyError] is not caught:
    [_parse] raises it. *)
Theorem get_qname_error_propagates (st st1 : State) (local : string) (e : PyExc) :
  inherited st = Ok st1 ->
  dict_lookup (attrib (elem (self st1))) "name" = Some local ->
  qname (target_namespace (schema st1)) local = Raise e ->
  isinstance e KeyError = false ->
  _parse qname inherited st = Raise e.
Proof.
  intros Hbase Hl Hq He. unfold _parse. rewrite Hbase. simpl.
  unfold parse_name, dict_getitem.
  rewrite check_global_self, check_global_namespace, Hl. simpl.
  rewrite Hq. simpl. rewrite He. reflexivity.
Qed.

(** X7. An exception of [get_qname] of the [KeyError] family is caught by
    the [try] statement together with the lookup of the attribute: the
    declaration is reported as having no name although the attribute is
    there, and the name of the component stays what it was. *)
Theorem get_qname_key_error_reported_as_missing_name
    (st st1 : State) (local : string) (e : PyExc) :
  inherited st = Ok st1 ->
  dict_lookup (attrib (elem (self st1))) "name" = Some local ->
  qname (target_namespace (schema st1)) local = Raise e ->
  isinstance e KeyError = true ->
  exists st',
    _parse qname inherited st = Ok st' /\
    name (self st') = name (self st1) /\
    parse_error (self_id (self st1)) (PyStr "a notation must have a 'name'.")
      ∈ errors (schema st').
Proof.
  intros Hbase Hl Hq He.
  assert (H2 : parse_name qname (check_global st1) =
               Ok (append_parse_error (check_global st1)
                     (PyStr "a notation must have a 'name'."))).
  { apply parse_name_caught with (local := local) (e := e).
    - rewrite check_global_self. exact Hl.
    - rewrite check_global_namespace. exact Hq.
    - exact He. }
  eexists. split; [exact (parse_unfold qname inherited st st1 _ Hbase H2)|].
  rewrite parse_attributes_spec. simpl. rewrite check_global_self.
  split; [reflexivity|].
  rewrite !elem_of_app. left. right. left.
Qed.

(** X8. The diagnostics about unknown attributes come in the order of the
    attributes: the keys they name are the keys of the element outside
    [id], [name], [public], [system], in document order. *)
Theorem wrong_attributes_in_document_order (st st1 : State) :
  inherited st = Ok st1 ->
  (forall ns local e, qname ns local = Raise e -> isinstance e KeyError = true) ->
  exists st' new,
    _parse qname inherited st = Ok st' /\
    errors (schema st') = errors (schema st1) ++ new /\
    omap wrong_attribute_key new =
      List.filter (fun k => negb (bool_decide (k ∈ known_attributes)))
                  (keys (attrib (elem (self st1)))).
Proof.
  intros Hbase Hq.
  destruct (parse_name_returns qname (check_global st1) Hq) as [st2 H2].
  destruct (parse_name_frame qname _ _ H2)
    as (He & Hi & _ & _ & _ & new & Herr & Hnew).
  rewrite check_global_self in He, Hi, Herr.
  eexists _, _. split; [exact (parse_unfold qname inherited st st1 st2 Hbase H2)|].
  split; [exact (parse_steps_errors st1 st2 new He Hi Herr)|].
  rewrite !fmap_app, !omap_app, wrong_attribute_keys.
  destruct (is_global (self st1)), Hnew as [-> | ->]; reflexivity.
Qed.

(** X9. [_parse] does not clear what it recorded: parsing the component a
    second time, with an inherited [_parse] that changes nothing, appends
    the same diagnostics once more and leaves the qualified name as it
    is. *)
Theorem reparse_repeats_diagnostics (st st' : State) :
  inherited st = Ok st ->
  inherited st' = Ok st' ->
  (forall local,
      dict_lookup (attrib (elem (self st))) "name" = Some local ->
      exists q, qname (target_namespace (schema st)) local = Ok q) ->
  _parse qname inherited st = Ok st' ->
  exists st'',
    _parse qname inherited st' = Ok st'' /\
    errors (schema st'') =
      errors (schema st) ++
      (parse_error (self_id (self st)) <$> detected_violations (self st)) ++
      (parse_error (self_id (self st)) <$> detected_violations (self st)) /\
    name (self st'') = name (self st').
Proof.
  intros Hbase Hbase' Hq Hp.
  destruct (parse_frame st st st' Hbase Hp)
    as (He & Hi & Hg & _ & Hn & _).
  destruct (parse_outcome qname inherited st st Hbase Hq)
    as (st2 & Hp1 & _ & _ & _ & Hname1 & Herr1).
  rewrite Hp in Hp1. injection Hp1 as Hst'.
  assert (Hq' : forall local,
             dict_lookup (attrib (elem (self st'))) "name" = Some local ->
             exists q, qname (target_namespace (schema st')) local = Ok q).
  { rewrite He, Hn. exact Hq. }
  destruct (parse_outcome qname inherited st' st' Hbase' Hq')
    as (st3 & Hp2 & _ & _ & _ & Hname2 & Herr2).
  exists (parse_attributes st3). split; [exact Hp2|]. split.
  - rewrite Herr2. rewrite Hst' at 1. rewrite Herr1, <- app_assoc.
    unfold detected_violations. rewrite Hi, Hg, He. reflexivity.
  - rewrite parse_attributes_spec. simpl. rewrite Hname2.
    rewrite He, Hn.
    assert (Hn1 : name (self st') = name (self st2)).
    { rewrite Hst', parse_attributes_spec. reflexivity. }
    rewrite Hn1, Hname1.
    destruct (dict_lookup (attrib (elem (self st))) "name") as [local|] eqn:E;
      [|reflexivity].
    destruct (Hq local eq_refl) as [q Hq1]. rewrite Hq1. reflexivity.
Qed.

End Extras.

Lemma missing_identifier_recorded_per_attribute_witness :
  exists st' new,
    _parse get_qname XsdComponent_parse
      (__init__ 1 (mkElement "notation" [("name", "jpeg"); ("kind", "raster")])
                images_schema true) = Ok st' /\
    errors (schema st') = errors images_schema ++ new /\
    length (List.filter is_missing_identifier new) = 2.
Proof.
  apply (missing_identifier_recorded_per_attribute get_qname XsdComponent_parse
           (__init__ 1 (mkElement "notation" [("name", "jpeg"); ("kind", "raster")])
                     images_schema true)
           (__init__ 1 (mkElement "notation" [("name", "jpeg"); ("kind", "raster")])
                     images_schema true)).
  - reflexivity.
  - intros ns local e. unfold get_qname.
    destruct (String.eqb ns ""); discriminate.
Defined.

Lemma clean_notation_records_nothing_witness :
  exists st',
    _parse get_qname XsdComponent_parse (__init__ 1 png_notation images_schema true)
      = Ok st' /\
    errors (schema st') = [] /\
    name (self st') = "{urn:images}png".
Proof.
  apply (clean_notation_records_nothing get_qname XsdComponent_parse
           (__init__ 1 png_notation images_schema true)
           (__init__ 1 png_notation images_schema true)
           "png" "{urn:images}png" eq_refl eq_refl eq_refl eq_refl eq_refl).
  apply (bool_decide_unpack _). vm_compute. exact I.
Defined.

Lemma parse_touches_name_and_errors_only_witness :
  exists st',
    _parse get_qname XsdComponent_parse (__init__ 1 jpeg_notation images_schema false)
      = Ok st' /\
    elem (self st') = jpeg_notation /\
    self_id (self st') = 1 /\
    is_global (self st') = false /\
    component_errors (self st') = [] /\
    target_namespace (schema st') = "urn:images" /\
    exists new, errors (schema st') = [] ++ new.
Proof.
  eexists. split; [reflexivity|].
  apply (parse_touches_name_and_errors_only get_qname XsdComponent_parse
           (__init__ 1 jpeg_notation images_schema false)
           (__init__ 1 jpeg_notation images_schema false) _ eq_refl eq_refl).
Defined.

Lemma get_qname_error_propagates_witness :
  _parse get_qname_index_error XsdComponent_parse
    (__init__ 1 jpeg_notation images_schema true) =
  Raise (mkExc IndexError [PyStr "string index out of range"]).
Proof.
  apply (get_qname_error_propagates get_qname_index_error XsdComponent_parse
           (__init__ 1 jpeg_notation images_schema true)
           (__init__ 1 jpeg_notation images_schema true)
           "jpeg" _ eq_refl eq_refl eq_refl eq_refl).
Defined.

Lemma get_qname_key_error_reported_as_missing_name_witness :
  exists st',
    _parse get_qname_key_error XsdComponent_parse
      (__init__ 1 jpeg_notation images_schema true) = Ok st' /\
    name (self st') = "jpeg" /\
    parse_error 1 (PyStr "a notation must have a 'name'.") ∈ errors (schema st').
Proof.
  apply (get_qname_key_error_reported_as_missing_name
           get_qname_key_error XsdComponent_parse
           (__init__ 1 jpeg_notation images_schema true)
           (__init__ 1 jpeg_notation images_schema true)
           "jpeg" (mkExc XMLSchemaKeyError [PyStr "jpeg"])
           eq_refl eq_refl eq_refl eq_refl).
Defined.

Lemma wrong_attributes_in_document_order_witness :
  exists st' new,
    _parse get_qname XsdComponent_parse
      (__init__ 1 (mkElement "notation"
                     [("zoom", "2"); ("name", "jpeg"); ("kind", "raster")])
                images_schema true) = Ok st' /\
    errors (schema st') = errors images_schema ++ new /\
    omap wrong_attribute_key new = ["zoom"; "kind"].
Proof.
  apply (wrong_attributes_in_document_order get_qname XsdComponent_parse
           (__init__ 1 (mkElement "notation"
                          [("zoom", "2"); ("name", "jpeg"); ("kind", "raster")])
                     images_schema true)
           (__init__ 1 (mkElement "notation"
                          [("zoom", "2"); ("name", "jpeg"); ("kind", "raster")])
                     images_schema true)).
  - reflexivity.
  - intros ns local e. unfold get_qname.
    destruct (String.eqb ns ""); discriminate.
Defined.

Lemma reparse_repeats_diagnostics_witness :
  exists st',
    _parse get_qname XsdComponent_parse (__init__ 1 jpeg_notation images_schema false)
      = Ok st' /\
    exists st'',
      _parse get_qname XsdComponent_parse st' = Ok st'' /\
      errors (schema st'') =
        [] ++
        (parse_error 1 <$>
           detected_violations (self (__init__ 1 jpeg_notation images_schema false))) ++
        (parse_error 1 <$>
           detected_violations (self (__init__ 1 jpeg_notation images_schema false))) /\
      name (self st'') = name (self st').
Proof.
  eexists. split; [reflexivity|].
  apply (reparse_repeats_diagnostics get_qname XsdComponent_parse
           (__init__ 1 jpeg_notation images_schema false) _ eq_refl eq_refl).
  - intros local _. exists ("{urn:images}" +:+ local). reflexivity.
  - reflexivity.
Defined.

End NotationExtras.

(** ** More on the entry points *)

Module ApiExtras.
Import Api.

#[local] Arguments insert : simpl never.
#[local] Arguments delete : simpl never.
#[local] Arguments lookup : simpl never.
#[local] Arguments singletonM : simpl never.
#[local] Arguments empty : simpl never.

(** Following a run through every answer of the world. *)
Ltac walk := repeat (simpl; case_match).

Ltac tidy := simpl in *; simplify_eq; simpl in *; simplify_eq.

(** A property of every event of a trace that is known event by event. *)
Ltac each_event :=
  simpl; repeat first [apply Forall_nil_2 | apply Forall_cons_2]; simpl; intros.



(** X11. With a schema instance, [to_json] fetches nothing and builds
    nothing, and [from_json] never does, whatever it is given. *)
Theorem given_schema_never_rebuilt
    (world : Oracle) (id : nat) (xml_document source schema : PyVal)
    (fp cls path converter process_namespaces locations : option PyVal)
    (json_options : option (gmap string PyVal)) (kwargs : gmap string PyVal) :
  Forall (fun ev => of_kind (@is_acquisition) ev = false)
    (run world []
       (to_json xml_document fp (Some (PyXMLSchema id)) cls path converter
                process_namespaces locations json_options kwargs)).1 /\
  Forall (fun ev => of_kind (@is_acquisition) ev = false)
    (run world [] (from_json source schema path converter json_options kwargs)).1.
Proof.
  split.
  - unfold to_json, call, pop.
    set (decoding := <["path":=_]> _). walk.
    all: try match goal with
             | items : list PyVal |- _ => destruct items as [|v0 [|v1 rest]]
             end.
    all: unfold getitem, tuple, call; walk.
    all: each_event; reflexivity.
  - unfold from_json, call, pop. walk.
    all: each_event; reflexivity.
Qed.

(** X12. When the schema argument is no instance, [validate], [to_dict]
    and [to_json] get their schema the same way. With no schema at all the
    first call fetches the schema of the document, with the caller's
    location hints, and the schema is then built from what was fetched,
    the fetched locations replacing the caller's. With a schema source the
    first call builds the schema from it with the caller's locations. *)
Theorem schema_acquisition_steps (world : Oracle) (c : EntryCall) :
  match c with
  | FromJson _ _ _ _ _ _ => False
  | _ => isinstance_XMLSchema (schema_of c) = false
  end ->
  let fetching := fetch_schema_locations (document_of c) (locations_of c) in
  if is_None (schema_of c) then
    (run world [] (entry_point c)).1 !! 0 =
      Some (Called fetching (world [] _ fetching)) /\
    forall schema locations,
      world [] _ fetching = Ok (schema, locations) ->
      exists r,
        (run world [] (entry_point c)).1 !! 1 =
        Some (Called (instantiate (cls_of c) [schema] (strict_keywords locations)) r)
  else
    exists r,
      (run world [] (entry_point c)).1 !! 0 =
      Some (Called (instantiate (cls_of c) [schema_of c]
                      (strict_keywords (locations_of c))) r).
Proof.
  destruct c; simpl; intros Hinst; [| | |contradiction].
  - unfold validate, call. rewrite Hinst.
    destruct (is_None (default PyNone schema)); walk.
    all: simpl; try (split; [reflexivity|]; intros); tidy; eauto.
  - unfold to_dict, call. rewrite Hinst.
    destruct (is_None (default PyNone schema)); walk.
    all: simpl; try (split; [reflexivity|]; intros); tidy; eauto.
  - unfold to_json, call, pop. rewrite Hinst.
    set (decoding := <["path":=_]> _).
    destruct (is_None (default PyNone schema)); walk.
    all: try match goal with
             | items : list PyVal |- _ => destruct items as [|v0 [|v1 rest]]
             end.
    all: unfold getitem, tuple, call; walk.
    all: simpl; try (split; [reflexivity|]; intros); tidy; eauto.
Qed.

Lemma schema_acquisition_steps_witness :
  (run lax_world []
     (entry_point (ToDict (PyStr "document.xml") None None None None None ∅))).1 !! 0 =
    Some (Called (fetch_schema_locations (PyStr "document.xml") PyNone)
                 (Ok (PyStr "schema.xsd", PyNone))) /\
  forall schema locations,
    lax_world [] _ (fetch_schema_locations (PyStr "document.xml") PyNone) =
      Ok (schema, locations) ->
    exists r,
      (run lax_world []
         (entry_point (ToDict (PyStr "document.xml") None None None None None ∅))).1
        !! 1 =
      Some (Called (instantiate XMLSchema [schema] (strict_keywords locations)) r).
Proof.
  exact (schema_acquisition_steps lax_world
           (ToDict (PyStr "document.xml") None None None None None ∅) eq_refl).
Defined.

(** X13. When fetching or building the schema fails, the entry point
    raises that error at once: the trace holds calls of the fetcher and of
    the class only, so no document was validated or decoded and nothing
    was serialized. *)
Theorem failed_acquisition_stops_the_call
    (world : Oracle) (c : EntryCall) (e : PyExc) :
  last (run world [] (entry_point c)).1 ≫= failure (@is_acquisition) = Some e ->
  (run world [] (entry_point c)).2 = Raise e /\
  Forall (fun ev => of_kind (@is_acquisition) ev = true)
    (run world [] (entry_point c)).1.
Proof.
  destruct c; unfold entry_point.
  - unfold validate, call. walk.
    all: simpl; intros; tidy; (split; [reflexivity|]); each_event; reflexivity.
  - unfold to_dict, call. walk.
    all: simpl; intros; tidy; (split; [reflexivity|]); each_event; reflexivity.
  - unfold to_json, call, pop.
    set (decoding := <["path":=_]> _). walk.
    all: try match goal with
             | items : list PyVal |- _ => destruct items as [|v0 [|v1 rest]]
             end.
    all: unfold getitem, tuple, call; walk.
    all: simpl; intros; tidy; (split; [reflexivity|]); each_event; reflexivity.
  - unfold from_json, call, pop. walk.
    all: simpl; intros; tidy.
Qed.

Lemma failed_acquisition_stops_the_call_witness :
  (run offline_world []
     (entry_point (Validate (PyStr "document.xml") None None None None))).2 =
    Raise (mkExc XMLSchemaURLError [PyStr "cannot access resource"]) /\
  Forall (fun ev => of_kind (@is_acquisition) ev = true)
    (run offline_world []
       (entry_point (Validate (PyStr "document.xml") None None None None))).1.
Proof.
  exact (failed_acquisition_stops_the_call offline_world
           (Validate (PyStr "document.xml") None None None None)
           (mkExc XMLSchemaURLError [PyStr "cannot access resource"]) eq_refl).
Defined.

(** X14. [to_json] without a file never calls [json.dump]. What decoding
    returned goes to [json.dumps] with [json_options], for a pair as for a
    plain result, and the text comes back: alone, or paired with the tuple
    of the errors. An error of [json.dumps] is raised on. *)
Theorem to_json_returning_text
    (world : Oracle) (xml_document : PyVal)
    (fp schema cls path converter process_namespaces locations : option PyVal)
    (json_options : option (gmap string PyVal)) (kwargs : gmap string PyVal) :
  default PyNone fp = PyNone ->
  let out := run world []
               (to_json xml_document fp schema cls path converter
                        process_namespaces locations json_options kwargs) in
  json_dump_calls out.1 = [] /\
  (forall value errs errors,
      codings out.1 = [PyTuple [value; errs]] ->
      sequence_items errs = Some errors ->
      omap json_dumps_call out.1 = [(value, default ∅ json_options)] /\
      ((exists text,
           omap json_text out.1 = [text] /\
           out.2 = Ok (PyTuple [PyStr text; PyTuple errors])) \/
       exists e, out.2 = Raise e /\
                 last out.1 ≫= failure (@is_json) = Some e)) /\
  (forall obj,
      codings out.1 = [obj] ->
      isinstance_tuple obj = false ->
      omap json_dumps_call out.1 = [(obj, default ∅ json_options)] /\
      ((exists text,
           omap json_text out.1 = [text] /\ out.2 = Ok (PyStr text)) \/
       exists e, out.2 = Raise e /\
                 last out.1 ≫= failure (@is_json) = Some e)).
Proof.
  intros Hfp. unfold to_json, call, pop. rewrite Hfp.
  set (decoding := <["path":=_]> _). walk.
  all: try match goal with
           | items : list PyVal |- _ => destruct items as [|v0 [|v1 rest]]
           end.
  all: unfold getitem, tuple, call; walk.
  all: simpl; (split; [reflexivity|]);
    (split; [intros value errs errors Hc Hseq | intros obj Hc Hplain]); tidy;
    try (split; [reflexivity|]);
    first [ left; eexists; split; reflexivity
          | right; eexists; split; reflexivity ].
Qed.

Lemma to_json_returning_text_witness :
  omap json_dumps_call
    (run lax_world []
       (to_json (PyStr "document.xml") None (Some (PyXMLSchema 0))
                None None None None None None ∅)).1 =
    [(PyObj 1, ∅)] /\
  ((exists text,
       omap json_text
         (run lax_world []
            (to_json (PyStr "document.xml") None (Some (PyXMLSchema 0))
                     None None None None None None ∅)).1 = [text] /\
       (run lax_world []
          (to_json (PyStr "document.xml") None (Some (PyXMLSchema 0))
                   None None None None None None ∅)).2 =
       Ok (PyTuple [PyStr text; PyTuple [PyObj 2]])) \/
   exists e,
     (run lax_world []
        (to_json (PyStr "document.xml") None (Some (PyXMLSchema 0))
                 None None None None None None ∅)).2 = Raise e /\
     last (run lax_world []
             (to_json (PyStr "document.xml") None (Some (PyXMLSchema 0))
                      None None None None None None ∅)).1
       ≫= failure (@is_json) = Some e).
Proof.
  exact (proj1 (proj2 (to_json_returning_text lax_world (PyStr "document.xml")
                         None (Some (PyXMLSchema 0)) None None None None None None ∅
                         eq_refl))
               (PyObj 1) (PyList [PyObj 2]) [PyObj 2] eq_refl eq_refl).
Defined.

(** The keywords with which [to_json] calls the decoder. *)
Lemma decoder_keywords
    (path decimal_type dict_class process_namespaces converter : PyVal)
    (kwargs : gmap string PyVal) :
  let kw :=
    <["path" := path]>
      (<["decimal_type" := decimal_type]>
         (<["dict_class" := dict_class]>
            (<["process_namespaces" := process_namespaces]>
               (<["converter" := converter]>
                  (delete "dict_class" (delete "decimal_type" kwargs)))))) in
  kw !! "path" = Some path /\
  kw !! "decimal_type" = Some decimal_type /\
  kw !! "dict_class" = Some dict_class /\
  kw !! "process_namespaces" = Some process_namespaces /\
  kw !! "converter" = Some converter /\
  forall k,
    k ∉ ["path"; "decimal_type"; "dict_class"; "process_namespaces"; "converter"] ->
    kw !! k = kwargs !! k.
Proof.
  simpl. split_and!; try by simplify_map_eq.
  intros k Hk. rewrite !not_elem_of_cons in Hk.
  destruct Hk as (? & ? & ? & ? & ? & _).
  rewrite !lookup_insert_ne, !lookup_delete_ne by done. reflexivity.
Qed.

(** X15. Whenever [to_json] calls the decoder, it is for the caller's
    document, with [decimal_type] and [dict_class] always among the
    keywords (the caller's, or [float] and the ordered dictionary class),
    with [path], [process_namespaces] (true unless given) and [converter],
    and with every other keyword of the caller unchanged. *)
Theorem to_json_decoder_keywords
    (world : Oracle) (xml_document : PyVal)
    (fp schema cls path converter process_namespaces locations : option PyVal)
    (json_options : option (gmap string PyVal)) (kwargs : gmap string PyVal) :
  Forall
    (fun ev =>
       forall obj document kw,
         decode_call ev = Some (obj, document, kw) ->
         document = xml_document /\
         kw !! "path" = Some (default PyNone path) /\
         kw !! "decimal_type" = Some (default float (kwargs !! "decimal_type")) /\
         kw !! "dict_class" =
           Some (default _ordered_dict_class (kwargs !! "dict_class")) /\
         kw !! "process_namespaces" =
           Some (default (PyBool true) process_namespaces) /\
         kw !! "converter" = Some (default PyNone converter) /\
         forall k,
           k ∉ ["path"; "decimal_type"; "dict_class"; "process_namespaces";
                "converter"] ->
           kw !! k = kwargs !! k)
    (run world []
       (to_json xml_document fp schema cls path converter
                process_namespaces locations json_options kwargs)).1.
Proof.
  assert (Hdict : delete "decimal_type" kwargs !! "dict_class" =
                  kwargs !! "dict_class") by (by rewrite lookup_delete_ne).
  unfold to_json, call, pop. rewrite Hdict.
  set (decoding := <["path":=_]> _).
  pose proof (decoder_keywords (default PyNone path)
                (default float (kwargs !! "decimal_type"))
                (default _ordered_dict_class (kwargs !! "dict_class"))
                (default (PyBool true) process_namespaces)
                (default PyNone converter) kwargs) as Hkw.
  simpl in Hkw. fold decoding in Hkw. clearbody decoding.
  walk.
  all: try match goal with
           | items : list PyVal |- _ => destruct items as [|v0 [|v1 rest]]
           end.
  all: unfold getitem, tuple, call; walk.
  all: each_event; tidy; (split; [reflexivity | exact Hkw]).
Qed.

(** The keywords with which [from_json] calls the loader. *)
Lemma loader_keywords (object_hook object_pairs_hook : PyVal)
    (json_options : gmap string PyVal) :
  let kw :=
    <["object_hook" := object_hook]>
      (<["object_pairs_hook" := object_pairs_hook]>
         (delete "object_pairs_hook" (delete "object_hook" json_options))) in
  kw !! "object_hook" = Some object_hook /\
  kw !! "object_pairs_hook" = Some object_pairs_hook /\
  forall k, k ∉ ["object_hook"; "object_pairs_hook"] -> kw !! k = json_options !! k.
Proof.
  simpl. split_and!; try by simplify_map_eq.
  intros k Hk. rewrite !not_elem_of_cons in Hk. destruct Hk as (? & ? & _).
  rewrite !lookup_insert_ne, !lookup_delete_ne by done. reflexivity.
Qed.

(** The keywords with which [from_json] calls the encoder. *)
Lemma encoder_keywords (path converter dict_class : PyVal)
    (kwargs : gmap string PyVal) :
  let kw :=
    <["path" := path]>
      (<["converter" := converter]>
         (<["dict_class" := dict_class]> (delete "dict_class" kwargs))) in
  kw !! "path" = Some path /\
  kw !! "converter" = Some converter /\
  kw !! "dict_class" = Some dict_class /\
  forall k, k ∉ ["path"; "converter"; "dict_class"] -> kw !! k = kwargs !! k.
Proof.
  simpl. split_and!; try by simplify_map_eq.
  intros k Hk. rewrite !not_elem_of_cons in Hk. destruct Hk as (? & ? & ? & _).
  rewrite !lookup_insert_ne, !lookup_delete_ne by done. reflexivity.
Qed.

(** X16. Given a schema instance, [from_json] first asks whether the source
    has a [read] attribute, then loads with [json.load] if it has and with
    [json.loads] if not. Both hooks are always among the loader's
    keywords, the caller's or the ordered dictionary class, and every
    other option of the caller is passed unchanged. *)
Theorem from_json_loading
    (world : Oracle) (source schema : PyVal) (path converter : option PyVal)
    (json_options : option (gmap string PyVal)) (kwargs : gmap string PyVal) :
  isinstance_XMLSchema schema = true ->
  let options := default ∅ json_options in
  let trace :=
    (run world [] (from_json source schema path converter json_options kwargs)).1 in
  trace !! 0 =
    Some (Called (hasattr source "read") (world [] _ (hasattr source "read"))) /\
  forall has_read : bool,
    world [] _ (hasattr source "read") = Ok has_read ->
    exists kw r,
      trace !! 1 =
        Some (Called (if has_read then json_load source kw
                      else json_loads source kw) r) /\
      kw !! "object_hook" =
        Some (default _ordered_dict_class (options !! "object_hook")) /\
      kw !! "object_pairs_hook" =
        Some (default _ordered_dict_class (options !! "object_pairs_hook")) /\
      forall k, k ∉ ["object_hook"; "object_pairs_hook"] -> kw !! k = options !! k.
Proof.
  intros Hinst.
  assert (Hpairs : delete "object_hook" (default ∅ json_options) !! "object_pairs_hook"
                   = default ∅ json_options !! "object_pairs_hook")
    by (by rewrite lookup_delete_ne).
  unfold from_json, call, pop. rewrite Hinst, Hpairs.
  pose proof (loader_keywords
                (default _ordered_dict_class (default ∅ json_options !! "object_hook"))
                (default _ordered_dict_class
                   (default ∅ json_options !! "object_pairs_hook"))
                (default ∅ json_options)) as Hkw.
  simpl in Hkw.
  set (loading := <["object_hook":=_]> _) in *. clearbody loading.
  set (encoding := <["path":=_]> _). clearbody encoding.
  walk.
  all: simpl; (split; [reflexivity|]); intros has_read Hread; tidy;
    eexists _, _; (split; [reflexivity | exact Hkw]).
Qed.

Lemma from_json_loading_witness :
  (run lax_world []
     (from_json (PyStr "{}") (PyXMLSchema 0) None None None ∅)).1 !! 0 =
    Some (Called (hasattr (PyStr "{}") "read") (Ok false)) /\
  forall has_read : bool,
    lax_world [] _ (hasattr (PyStr "{}") "read") = Ok has_read ->
    exists kw r,
      (run lax_world []
         (from_json (PyStr "{}") (PyXMLSchema 0) None None None ∅)).1 !! 1 =
        Some (Called (if has_read then json_load (PyStr "{}") kw
                      else json_loads (PyStr "{}") kw) r) /\
      kw !! "object_hook" =
        Some (default _ordered_dict_class ((∅ : gmap string PyVal) !! "object_hook")) /\
      kw !! "object_pairs_hook" =
        Some (default _ordered_dict_class
                ((∅ : gmap string PyVal) !! "object_pairs_hook")) /\
      forall k, k ∉ ["object_hook"; "object_pairs_hook"] ->
                kw !! k = (∅ : gmap string PyVal) !! k.
Proof.
  exact (from_json_loading lax_world (PyStr "{}") (PyXMLSchema 0) None None None ∅
           eq_refl).
Defined.

(** X17. Given a schema instance, [from_json] encodes what was loaded and
    nothing else: an error of the loader is raised on and the encoder is
    not called; a loaded object goes, once, to the [encode] method of the
    given schema, with [path], [converter], [dict_class] (the caller's or
    the ordered dictionary class) and the caller's other keywords, and what
    [from_json] returns is what [encode] returned. *)
Theorem from_json_encodes_what_was_loaded
    (world : Oracle) (source schema : PyVal) (path converter : option PyVal)
    (json_options : option (gmap string PyVal)) (kwargs : gmap string PyVal) :
  isinstance_XMLSchema schema = true ->
  let out :=
    run world [] (from_json source schema path converter json_options kwargs) in
  (forall e,
      last out.1 ≫= failure (@is_json) = Some e ->
      out.2 = Raise e /\ omap encode_call out.1 = []) /\
  (forall data,
      omap json_loaded out.1 = [data] ->
      exists kw,
        omap encode_call out.1 = [(schema, data, kw)] /\
        kw !! "path" = Some (default PyNone path) /\
        kw !! "converter" = Some (default PyNone converter) /\
        kw !! "dict_class" =
          Some (default _ordered_dict_class (kwargs !! "dict_class")) /\
        (forall k, k ∉ ["path"; "converter"; "dict_class"] ->
                   kw !! k = kwargs !! k) /\
        forall v, out.2 = Ok v -> codings out.1 = [v]).
Proof.
  intros Hinst.
  unfold from_json, call, pop. rewrite Hinst.
  pose proof (encoder_keywords (default PyNone path) (default PyNone converter)
                (default _ordered_dict_class (kwargs !! "dict_class")) kwargs)
    as (Hk1 & Hk2 & Hk3 & Hk4).
  simpl in Hk1, Hk2, Hk3, Hk4.
  set (loading := <["object_hook":=_]> _). clearbody loading.
  set (encoding := <["path":=_]> _) in *. clearbody encoding.
  walk.
  all: simpl; split; [intros err Herr | intros data Hd]; tidy;
    try (split; reflexivity);
    eexists; split_and!;
      first [ reflexivity | assumption | (intros; tidy; reflexivity) ].
Qed.

Lemma from_json_encodes_what_was_loaded_witness :
  exists kw,
    omap encode_call
      (run lax_world []
         (from_json (PyStr "{}") (PyXMLSchema 0) None None None ∅)).1 =
      [(PyXMLSchema 0, PyNone, kw)] /\
    kw !! "path" = Some PyNone /\
    kw !! "converter" = Some PyNone /\
    kw !! "dict_class" =
      Some (default _ordered_dict_class ((∅ : gmap string PyVal) !! "dict_class")) /\
    (forall k, k ∉ ["path"; "converter"; "dict_class"] ->
               kw !! k = (∅ : gmap string PyVal) !! k) /\
    forall v,
      (run lax_world []
         (from_json (PyStr "{}") (PyXMLSchema 0) None None None ∅)).2 = Ok v ->
      codings
        (run lax_world []
           (from_json (PyStr "{}") (PyXMLSchema 0) None None None ∅)).1 = [v].
Proof.
  exact (proj2 (from_json_encodes_what_was_loaded lax_world (PyStr "{}")
                  (PyXMLSchema 0) None None None ∅ eq_refl)
               PyNone eq_refl).
Defined.

(** X18. [validate] only fetches, builds and validates: its trace holds no
    call of a decoder, an encoder or the [json] module. It validates at
    most once, the caller's document, with [use_defaults] as given and
    true when left out. *)
Theorem validate_only_validates
    (world : Oracle) (xml_document : PyVal)
    (schema cls use_defaults locations : option PyVal) :
  let trace :=
    (run world [] (validate xml_document schema cls use_defaults locations)).1 in
  Forall (fun ev => of_kind (@is_acquisition) ev || of_kind (@is_validation) ev = true)
    trace /\
  Forall
    (fun ev =>
       forall obj document flag,
         validate_call ev = Some (obj, document, flag) ->
         document = xml_document /\ flag = default (PyBool true) use_defaults)
    trace /\
  length (omap validate_call trace) <= 1.
Proof.
  unfold validate, call. walk.
  all: simpl; split_and!; [each_event; reflexivity | each_event; tidy; done | lia].
Qed.



(** The keywords with which [to_dict] calls the decoder. *)
Lemma to_dict_keywords (path process_namespaces : PyVal)
    (kwargs : gmap string PyVal) :
  let kw := <["path" := path]> (<["process_namespaces" := process_namespaces]> kwargs) in
  kw !! "path" = Some path /\
  kw !! "process_namespaces" = Some process_namespaces /\
  forall k, k ∉ ["path"; "process_namespaces"] -> kw !! k = kwargs !! k.
Proof.
  simpl. split_and!; try by simplify_map_eq.
  intros k Hk. rewrite !not_elem_of_cons in Hk. destruct Hk as (? & ? & _).
  rewrite !lookup_insert_ne by done. reflexivity.
Qed.

(** X20. [to_dict] hands the decoder the caller's document, [path],
    [process_namespaces] (true when left out) and every keyword of the
    caller unchanged, so a [validation] keyword reaches the decoder, and
    it returns what the decoder returned and raises what it raised. *)
Theorem to_dict_passes_through
    (world : Oracle) (xml_document : PyVal)
    (schema cls path process_namespaces locations : option PyVal)
    (kwargs : gmap string PyVal) :
  let out := run world []
               (to_dict xml_document schema cls path process_namespaces
                        locations kwargs) in
  Forall
    (fun ev =>
       forall obj document kw,
         decode_call ev = Some (obj, document, kw) ->
         document = xml_document /\
         kw !! "path" = Some (default PyNone path) /\
         kw !! "process_namespaces" =
           Some (default (PyBool true) process_namespaces) /\
         forall k, k ∉ ["path"; "process_namespaces"] -> kw !! k = kwargs !! k)
    out.1 /\
  (forall v, out.2 = Ok v -> codings out.1 = [v]) /\
  (forall e, last out.1 ≫= failure (@is_method) = Some e -> out.2 = Raise e).
Proof.
  unfold to_dict, call.
  pose proof (to_dict_keywords (default PyNone path)
                (default (PyBool true) process_namespaces) kwargs) as Hkw.
  simpl in Hkw.
  set (decoding := <["path":=_]> _) in *. clearbody decoding. walk.
  all: simpl; split_and!;
    [ each_event; tidy; (split; [reflexivity | exact Hkw])
    | intros ? ?; tidy; reflexivity
    | intros ? ?; tidy; reflexivity ].
Qed.

End ApiExtras.
